(** * Panorama Slicer: pagination geometry, page material and export

    A shallow embedding of [panorama_slicer.py] (class [PanoramaSlicer]) and
    the properties of its page grid, page renderer, export pipeline, view
    state and image loading.

    Numbers.  Python [int] is modelled by [Z].  Python [float] is modelled by
    the exact rationals [Q]: every float operation of the program ([/], [*],
    [+], [-], [//], [math.ceil], [int], [round], [max], [min]) is taken at its
    exact mathematical value, so rounding error of the IEEE arithmetic is not
    part of the model.  Equality of such numbers is [Qeq] ([==]).

    Collaborators.  Pillow ([Image.open], [load], [crop], [new], [paste],
    [save]), [os.path] and the Tk widgets are outside the program.  The
    raster operations are modelled from Pillow's behaviour in module [PIL];
    decoding, saving and path handling are functions of an environment
    record; the Tk labels and message boxes are a log of events. *)

From Stdlib Require Import ZArith QArith Qround Qminmax Lqa Lia.
From Stdlib Require Import List Ascii String Bool DecimalString DecimalN.
Import ListNotations.

Local Open Scope Z_scope.

(** ** Python numeric primitives *)

Module Py.

(** [math.ceil(x)]. *)
Definition ceil (x : Q) : Z := Qceiling x.

(** [x // y] on numbers, as an integer: the floor of the quotient. *)
Definition floordiv (x y : Q) : Z := Qfloor (x / y).

(** [int(x)]: truncation toward zero. *)
Definition int (x : Q) : Z :=
  if Qle_bool 0 x then Qfloor x else Qceiling x.

(** [round(x)] with one argument: nearest integer, ties to the even one. *)
Definition round (x : Q) : Z :=
  let f := Qfloor x in
  match (x - inject_Z f ?= 1 # 2)%Q with
  | Lt => f
  | Gt => f + 1
  | Eq => if Z.even f then f else f + 1
  end.

(** Comparisons [a <= b] and [a < b] as tests. *)
Definition leb (a b : Q) : bool := Qle_bool a b.
Definition ltb (a b : Q) : bool := negb (Qle_bool b a).

(** [max(a, b)] and [min(a, b)] return [a] unless [b] is strictly
    greater (smaller); [Qmax] and [Qmin] choose the same way. *)
Definition max (a b : Q) : Q := Qmax a b.
Definition min (a b : Q) : Q := Qmin a b.

(** [f"{n:03d}"]: decimal, zero-padded to width 3, the sign counted in
    the width. *)
Definition digits (n : Z) : string :=
  NilZero.string_of_uint (N.to_uint (Z.to_N (Z.abs n))).

Fixpoint zeros (k : nat) : string :=
  match k with
  | O => EmptyString
  | S k' => String "0"%char (zeros k')
  end.

Definition format_03d (n : Z) : string :=
  let d := digits n in
  if n <? 0
  then String "-"%char (zeros (2 - String.length d)) ++ d
  else zeros (3 - String.length d) ++ d.

End Py.

(** ** Pillow rasters *)

Inductive exn : Type :=
| ValueError (msg : string)
| OSError (msg : string)
| TypeError (msg : string)
| AttributeError (msg : string)
| ZeroDivisionError.

Module PIL.

Definition pixel : Type := (Z * Z * Z)%type.

Definition white : pixel := (255, 255, 255).
Definition zero_fill : pixel := (0, 0, 0).

(** An image: its mode, its size [(width, height)] and its pixels.
    [getpixel] is meaningful for [0 <= x < width], [0 <= y < height]. *)
Record Image : Type := mkImage {
  mode : string;
  size : Z * Z;
  getpixel : Z -> Z -> pixel
}.

Definition inside (sz : Z * Z) (x y : Z) : bool :=
  (0 <=? x) && (x <? fst sz) && (0 <=? y) && (y <? snd sz).

(** [im.crop((left, upper, right, lower))].  Pillow refuses a box whose
    right is less than its left (or lower less than upper), rounds the
    four coordinates with [round] and returns an image of size
    [(x1 - x0, y1 - y0)]; the part of the box outside the source is
    filled with zeros. *)
Definition crop (im : Image) (box : Q * Q * Q * Q) : exn + Image :=
  let '(left_, upper, right_, lower) := box in
  if Py.ltb right_ left_
  then inl (ValueError "Coordinate right is less than left")
  else if Py.ltb lower upper
  then inl (ValueError "Coordinate lower is less than upper")
  else
    let x0 := Py.round left_ in
    let y0 := Py.round upper in
    let x1 := Py.round right_ in
    let y1 := Py.round lower in
    inr {| mode := mode im;
           size := (x1 - x0, y1 - y0);
           getpixel := fun x y =>
             if inside (size im) (x0 + x) (y0 + y)
             then getpixel im (x0 + x) (y0 + y)
             else zero_fill |}.

(** [Image.new(mode, size, color)]. *)
Definition new (m : string) (sz : Z * Z) (color : pixel) : Image :=
  {| mode := m; size := sz; getpixel := fun _ _ => color |}.

(** [dst.paste(src, (x, y))]: the pixels of [src] replace those of [dst]
    in the box whose upper left corner is [(x, y)]. *)
Definition paste (dst src : Image) (at_ : Z * Z) : Image :=
  let '(px, py) := at_ in
  {| mode := mode dst;
     size := size dst;
     getpixel := fun x y =>
       if inside (size src) (x - px) (y - py)
       then getpixel src (x - px) (y - py)
       else getpixel dst x y |}.

End PIL.

(** ** The application state *)

(** What the Tk widgets show: the status line and the message boxes, most
    recent first.  The texts are kept in structured form; the numbers are
    the ones the source interpolates into its format strings. *)
Inductive ui_event : Type :=
| StatusLoading (path : string)
| StatusLoaded
| StatusErrorLoading
| StatusStartSet (pages : Z)
| StatusStartReset
| StatusExported (filename : string)
| StatusExportingPage (page_num total : Z)
| StatusExportedAll (total : Z) (dir : string)
| StatusExportingVisible (page_num exported count : Z)
| StatusExportedVisible (count : Z) (dir : string)
| InfoLabel (path : string) (pages : Z)
| ShowError (title : string) (e : exn)
| ShowWarning (msg : string)
| ShowInfoExported (count : Z).

(** The fields of [PanoramaSlicer] that the modelled methods read or write
    (the drag bookkeeping and the grid colours are left out), the size of
    the canvas widget as [winfo_width]/[winfo_height] report it, the files
    written so far and the event log. *)
Record PanoramaSlicer : Type := mkSlicer {
  original_image : option PIL.Image;
  image_path : option string;
  img_width : Z;
  img_height : Z;
  pixels_per_inch : Q;
  page_width_px : Z;
  page_height_px : Z;
  zoom : Q;
  pan_x : Q;
  pan_y : Q;
  right_to_left : bool;
  start_offset : Q;
  pages_x : Z;
  pages_y : Z;
  output_dir : option string;
  canvas_width : Z;
  canvas_height : Z;
  files : list (string * PIL.Image);
  ui : list ui_event
}.

(** Page dimensions in inches (landscape). *)
Definition PAGE_WIDTH_INCHES : Q := 11.
Definition PAGE_HEIGHT_INCHES : Q := 17 # 2.

(** [__init__], for a canvas of the given size. *)
Definition init (cw ch : Z) : PanoramaSlicer :=
  {| original_image := None; image_path := None;
     img_width := 0; img_height := 0;
     pixels_per_inch := 0; page_width_px := 0; page_height_px := 0;
     zoom := 1 # 10; pan_x := 0; pan_y := 0;
     right_to_left := true; start_offset := 0;
     pages_x := 0; pages_y := 0;
     output_dir := None;
     canvas_width := cw; canvas_height := ch;
     files := []; ui := [] |}.

(** Attribute assignment [self.f = v], one setter per assigned field. *)
Definition set_original_image v (s : PanoramaSlicer) :=
  mkSlicer v (image_path s) (img_width s) (img_height s) (pixels_per_inch s)
    (page_width_px s) (page_height_px s) (zoom s) (pan_x s) (pan_y s)
    (right_to_left s) (start_offset s) (pages_x s) (pages_y s) (output_dir s)
    (canvas_width s) (canvas_height s) (files s) (ui s).
Definition set_image_path v (s : PanoramaSlicer) :=
  mkSlicer (original_image s) v (img_width s) (img_height s) (pixels_per_inch s)
    (page_width_px s) (page_height_px s) (zoom s) (pan_x s) (pan_y s)
    (right_to_left s) (start_offset s) (pages_x s) (pages_y s) (output_dir s)
    (canvas_width s) (canvas_height s) (files s) (ui s).
Definition set_img_size (wh : Z * Z) (s : PanoramaSlicer) :=
  mkSlicer (original_image s) (image_path s) (fst wh) (snd wh) (pixels_per_inch s)
    (page_width_px s) (page_height_px s) (zoom s) (pan_x s) (pan_y s)
    (right_to_left s) (start_offset s) (pages_x s) (pages_y s) (output_dir s)
    (canvas_width s) (canvas_height s) (files s) (ui s).
Definition set_pixels_per_inch v (s : PanoramaSlicer) :=
  mkSlicer (original_image s) (image_path s) (img_width s) (img_height s) v
    (page_width_px s) (page_height_px s) (zoom s) (pan_x s) (pan_y s)
    (right_to_left s) (start_offset s) (pages_x s) (pages_y s) (output_dir s)
    (canvas_width s) (canvas_height s) (files s) (ui s).
Definition set_page_width_px v (s : PanoramaSlicer) :=
  mkSlicer (original_image s) (image_path s) (img_width s) (img_height s)
    (pixels_per_inch s) v (page_height_px s) (zoom s) (pan_x s) (pan_y s)
    (right_to_left s) (start_offset s) (pages_x s) (pages_y s) (output_dir s)
    (canvas_width s) (canvas_height s) (files s) (ui s).
Definition set_page_height_px v (s : PanoramaSlicer) :=
  mkSlicer (original_image s) (image_path s) (img_width s) (img_height s)
    (pixels_per_inch s) (page_width_px s) v (zoom s) (pan_x s) (pan_y s)
    (right_to_left s) (start_offset s) (pages_x s) (pages_y s) (output_dir s)
    (canvas_width s) (canvas_height s) (files s) (ui s).
Definition set_zoom v (s : PanoramaSlicer) :=
  mkSlicer (original_image s) (image_path s) (img_width s) (img_height s)
    (pixels_per_inch s) (page_width_px s) (page_height_px s) v (pan_x s) (pan_y s)
    (right_to_left s) (start_offset s) (pages_x s) (pages_y s) (output_dir s)
    (canvas_width s) (canvas_height s) (files s) (ui s).
Definition set_pan (x y : Q) (s : PanoramaSlicer) :=
  mkSlicer (original_image s) (image_path s) (img_width s) (img_height s)
    (pixels_per_inch s) (page_width_px s) (page_height_px s) (zoom s) x y
    (right_to_left s) (start_offset s) (pages_x s) (pages_y s) (output_dir s)
    (canvas_width s) (canvas_height s) (files s) (ui s).
Definition set_right_to_left v (s : PanoramaSlicer) :=
  mkSlicer (original_image s) (image_path s) (img_width s) (img_height s)
    (pixels_per_inch s) (page_width_px s) (page_height_px s) (zoom s) (pan_x s)
    (pan_y s) v (start_offset s) (pages_x s) (pages_y s) (output_dir s)
    (canvas_width s) (canvas_height s) (files s) (ui s).
Definition set_start_offset v (s : PanoramaSlicer) :=
  mkSlicer (original_image s) (image_path s) (img_width s) (img_height s)
    (pixels_per_inch s) (page_width_px s) (page_height_px s) (zoom s) (pan_x s)
    (pan_y s) (right_to_left s) v (pages_x s) (pages_y s) (output_dir s)
    (canvas_width s) (canvas_height s) (files s) (ui s).
Definition set_pages_x v (s : PanoramaSlicer) :=
  mkSlicer (original_image s) (image_path s) (img_width s) (img_height s)
    (pixels_per_inch s) (page_width_px s) (page_height_px s) (zoom s) (pan_x s)
    (pan_y s) (right_to_left s) (start_offset s) v (pages_y s) (output_dir s)
    (canvas_width s) (canvas_height s) (files s) (ui s).
Definition set_pages_y v (s : PanoramaSlicer) :=
  mkSlicer (original_image s) (image_path s) (img_width s) (img_height s)
    (pixels_per_inch s) (page_width_px s) (page_height_px s) (zoom s) (pan_x s)
    (pan_y s) (right_to_left s) (start_offset s) (pages_x s) v (output_dir s)
    (canvas_width s) (canvas_height s) (files s) (ui s).
Definition set_output_dir v (s : PanoramaSlicer) :=
  mkSlicer (original_image s) (image_path s) (img_width s) (img_height s)
    (pixels_per_inch s) (page_width_px s) (page_height_px s) (zoom s) (pan_x s)
    (pan_y s) (right_to_left s) (start_offset s) (pages_x s) (pages_y s) v
    (canvas_width s) (canvas_height s) (files s) (ui s).
Definition add_file (path : string) (im : PIL.Image) (s : PanoramaSlicer) :=
  mkSlicer (original_image s) (image_path s) (img_width s) (img_height s)
    (pixels_per_inch s) (page_width_px s) (page_height_px s) (zoom s) (pan_x s)
    (pan_y s) (right_to_left s) (start_offset s) (pages_x s) (pages_y s)
    (output_dir s) (canvas_width s) (canvas_height s)
    ((path, im) :: files s) (ui s).
Definition notify (e : ui_event) (s : PanoramaSlicer) :=
  mkSlicer (original_image s) (image_path s) (img_width s) (img_height s)
    (pixels_per_inch s) (page_width_px s) (page_height_px s) (zoom s) (pan_x s)
    (pan_y s) (right_to_left s) (start_offset s) (pages_x s) (pages_y s)
    (output_dir s) (canvas_width s) (canvas_height s) (files s) (e :: ui s).

(** ** Actions: state passing with exceptions

    A method that can raise returns its outcome together with the state it
    leaves behind: what was assigned before the exception stays assigned. *)

Inductive outcome (A : Type) : Type :=
| Returned (a : A)
| Raised (e : exn).
Arguments Returned {A} a.
Arguments Raised {A} e.

Definition action (A : Type) : Type :=
  PanoramaSlicer -> outcome A * PanoramaSlicer.

Definition ret {A} (a : A) : action A := fun s => (Returned a, s).

Definition bind {A B} (c : action A) (k : A -> action B) : action B :=
  fun s =>
    match c s with
    | (Returned a, s') => k a s'
    | (Raised e, s') => (Raised e, s')
    end.

Definition raise {A} (e : exn) : action A := fun s => (Raised e, s).

Definition modify (f : PanoramaSlicer -> PanoramaSlicer) : action unit :=
  fun s => (Returned tt, f s).

Definition gets {A} (f : PanoramaSlicer -> A) : action A :=
  fun s => (Returned (f s), s).

(** A collaborator's answer, an exception or a value, as an action. *)
Definition call {A} (r : exn + A) : action A :=
  match r with
  | inl e => raise e
  | inr a => ret a
  end.

(** [try: body except Exception as e: handler(e)]. *)
Definition try_except (body : action unit) (handler : exn -> action unit)
  : action unit :=
  fun s =>
    match body s with
    | (Returned tt, s') => (Returned tt, s')
    | (Raised e, s') => handler e s'
    end.

Declare Scope action_scope.
Delimit Scope action_scope with action.
Notation "x <- c ;; k" := (bind c (fun x => k))
  (at level 61, c at next level, right associativity) : action_scope.
Notation "c ;; k" := (bind c (fun _ => k))
  (at level 61, right associativity) : action_scope.

(** [range(a, b)]. *)
Definition range (a b : Z) : list Z :=
  map (fun i => a + Z.of_nat i) (seq 0 (Z.to_nat (b - a))).

(** [for x in xs: body(x)]: an exception in the body leaves the loop. *)
Fixpoint for_each (xs : list Z) (body : Z -> action unit) : action unit :=
  match xs with
  | [] => ret tt
  | x :: xs' => bind (body x) (fun _ => for_each xs' body)
  end.

(** ** Collaborators outside the program *)

Record Collaborators : Type := {
  (** [Image.open(path)]: reads the header; the pixels are not decoded yet. *)
  Image_open : string -> exn + PIL.Image;
  (** [image.load()]: decodes the pixels; [Some e] when it raises [e]. *)
  Image_load : PIL.Image -> option exn;
  (** [image.save(path, "PNG", compress_level=1)]; [Some e] when it raises. *)
  Image_save : PIL.Image -> string -> option exn;
  os_path_basename : string -> string;
  os_path_dirname : string -> string;
  os_path_splitext : string -> string * string;
  os_path_join : string -> string -> string
}.

(** A mouse event: button number, wheel delta and canvas position. *)
Record Event : Type := {
  num : Z;
  delta : Z;
  ev_x : Z;
  ev_y : Z
}.

(** Truth value of [self.output_dir]: [None] and the empty string are
    false. *)
Definition truthy (d : option string) : bool :=
  match d with
  | None => false
  | Some EmptyString => false
  | Some _ => true
  end.

Definition is_loaded (self : PanoramaSlicer) : bool :=
  match original_image self with
  | Some _ => true
  | None => false
  end.

(** ** View handlers *)

(** [refresh_view], lines 216-233: the clamping of the pan offset.  The
    drawing that follows (crop, resize, grid overlay, zoom label) writes to
    the canvas only and is not modelled. *)
Definition refresh_view (self : PanoramaSlicer) : PanoramaSlicer :=
  if negb (is_loaded self) then self else
  let canvas_w := canvas_width self in
  let canvas_h := canvas_height self in
  let view_w := (inject_Z canvas_w / zoom self)%Q in
  let view_h := (inject_Z canvas_h / zoom self)%Q in
  let max_pan_x := Py.max 0 (inject_Z (img_width self) - view_w) in
  let max_pan_y := Py.max 0 (inject_Z (img_height self) - view_h) in
  set_pan (Py.max 0 (Py.min (pan_x self) max_pan_x))
          (Py.max 0 (Py.min (pan_y self) max_pan_y)) self.

(** [fit_to_window], lines 189-202. *)
Definition fit_to_window (self : PanoramaSlicer) : PanoramaSlicer :=
  if negb (is_loaded self) then self else
  let canvas_w := canvas_width self in
  let canvas_h := canvas_height self in
  let '(canvas_w, canvas_h) :=
    if (canvas_w <? 10) || (canvas_h <? 10) then (1400, 800)
    else (canvas_w, canvas_h) in
  let zoom_x := (inject_Z canvas_w / inject_Z (img_width self))%Q in
  let zoom_y := (inject_Z canvas_h / inject_Z (img_height self))%Q in
  let self := set_zoom (Py.min zoom_x zoom_y * (95 # 100))%Q self in
  let self := set_pan 0 0 self in
  refresh_view self.

(** [zoom_100], lines 204-208. *)
Definition zoom_100 (self : PanoramaSlicer) : PanoramaSlicer :=
  if negb (is_loaded self) then self else
  let self := set_zoom 1 self in
  refresh_view self.

(** [on_scroll], lines 326-347. *)
Definition on_scroll (event : Event) (self : PanoramaSlicer) : PanoramaSlicer :=
  if negb (is_loaded self) then self else
  let factor : Q :=
    if (num event =? 4) || (0 <? delta event) then 12 # 10
    else (1 / (12 # 10))%Q in
  let mouse_x_img := (pan_x self + inject_Z (ev_x event) / zoom self)%Q in
  let mouse_y_img := (pan_y self + inject_Z (ev_y event) / zoom self)%Q in
  let self := set_zoom (Py.max (1 # 100) (Py.min 5 (zoom self * factor)%Q)) self in
  let self := set_pan (mouse_x_img - inject_Z (ev_x event) / zoom self)%Q
                      (mouse_y_img - inject_Z (ev_y event) / zoom self)%Q self in
  refresh_view self.

(** [pan_by], lines 409-414. *)
Definition pan_by (dx dy : Z) (self : PanoramaSlicer) : PanoramaSlicer :=
  if negb (is_loaded self) then self else
  let self := set_pan (pan_x self + inject_Z dx / zoom self)%Q
                      (pan_y self + inject_Z dy / zoom self)%Q self in
  refresh_view self.

(** ** Pagination handlers *)

(** The page under an image coordinate, lines 359-366 of [on_mouse_move]
    and, word for word, lines 423-430 of [export_clicked_page]. *)
Definition page_num_at (self : PanoramaSlicer) (img_x : Q) : Z :=
  let dist_from_start :=
    if right_to_left self then
      let start_x := (inject_Z (img_width self) - start_offset self)%Q in
      (start_x - img_x)%Q
    else
      let start_x := start_offset self in
      (img_x - start_x)%Q in
  Py.floordiv dist_from_start (inject_Z (page_width_px self)) + 1.

(** [on_mouse_move], lines 352-371: the page shown in the page info label,
    [None] for the text without a page. *)
Definition on_mouse_move (event : Event) (self : PanoramaSlicer) : option Z :=
  if negb (is_loaded self) then None else
  let img_x := (pan_x self + inject_Z (ev_x event) / zoom self)%Q in
  let page_num := page_num_at self img_x in
  if (1 <=? page_num) && (page_num <=? pages_x self) then Some page_num
  else None.

(** [on_right_click], lines 373-395. *)
Definition on_right_click (event : Event) (self : PanoramaSlicer)
  : PanoramaSlicer :=
  if negb (is_loaded self) then self else
  let img_x := (pan_x self + inject_Z (ev_x event) / zoom self)%Q in
  let self :=
    if right_to_left self
    then set_start_offset (inject_Z (img_width self) - img_x)%Q self
    else set_start_offset img_x self in
  let self :=
    set_start_offset
      (Py.max 0 (Py.min (start_offset self)
                        (inject_Z (img_width self - page_width_px self))))
      self in
  let remaining_width := (inject_Z (img_width self) - start_offset self)%Q in
  let self :=
    set_pages_x (Py.ceil (remaining_width / inject_Z (page_width_px self))) self in
  let self := notify (StatusStartSet (pages_x self)) self in
  refresh_view self.

(** [reset_start], lines 397-403. *)
Definition reset_start (self : PanoramaSlicer) : PanoramaSlicer :=
  let self := set_start_offset 0 self in
  let self :=
    if is_loaded self
    then set_pages_x
           (Py.ceil (inject_Z (img_width self) / inject_Z (page_width_px self)))
           self
    else self in
  let self := refresh_view self in
  notify StatusStartReset self.

(** [on_direction_change], lines 405-407. *)
Definition on_direction_change (self : PanoramaSlicer) : PanoramaSlicer :=
  reset_start self.

(** The Right-to-Left check button: Tk flips the variable, then runs the
    command [on_direction_change] (line 71). *)
Definition toggle_right_to_left (self : PanoramaSlicer) : PanoramaSlicer :=
  on_direction_change (set_right_to_left (negb (right_to_left self)) self).

(** The page rectangle, lines 438-447 of [export_page] and, word for word,
    lines 739-746 of [get_page_image]. *)
Definition page_box (self : PanoramaSlicer) (page_num : Z) : Q * Q :=
  if right_to_left self then
    let start_x := (inject_Z (img_width self) - start_offset self)%Q in
    let right_ :=
      (start_x - inject_Z ((page_num - 1) * page_width_px self))%Q in
    let left_ := Py.max 0 (right_ - inject_Z (page_width_px self))%Q in
    (left_, right_)
  else
    let start_x := start_offset self in
    let left_ :=
      (start_x + inject_Z ((page_num - 1) * page_width_px self))%Q in
    let right_ :=
      Py.min (left_ + inject_Z (page_width_px self))%Q
             (inject_Z (img_width self)) in
    (left_, right_).

(** The visible page range, lines 626-637 of [get_visible_page_numbers]
    and, word for word, lines 498-511 of [export_visible_pages]. *)
Definition visible_range (self : PanoramaSlicer) : Z * Z :=
  let canvas_w := canvas_width self in
  let view_left := pan_x self in
  let view_right := (pan_x self + inject_Z canvas_w / zoom self)%Q in
  let P := inject_Z (page_width_px self) in
  if right_to_left self then
    let start_x := (inject_Z (img_width self) - start_offset self)%Q in
    let start_page := Z.max 1 (Py.floordiv (start_x - view_right) P + 1) in
    let end_page := Z.min (pages_x self) (Py.floordiv (start_x - view_left) P + 1) in
    (start_page, end_page)
  else
    let start_x := start_offset self in
    let start_page := Z.max 1 (Py.floordiv (view_left - start_x) P + 1) in
    let end_page := Z.min (pages_x self) (Py.floordiv (view_right - start_x) P + 1) in
    (start_page, end_page).

(** [get_visible_page_numbers], lines 624-639. *)
Definition get_visible_page_numbers (self : PanoramaSlicer) : list Z :=
  let '(start_page, end_page) := visible_range self in
  range start_page (end_page + 1).

(** ** Page material, export and loading *)

Section WithCollaborators.

Variable env : Collaborators.

Local Open Scope action_scope.


(** [export_page], lines 435-474. *)
Definition export_page (page_num : Z) : action unit := fun self =>
  let '(left_, right_) := page_box self page_num in
  let top := 0%Q in
  let bottom := inject_Z (img_height self) in
  match original_image self with
  | None => (Raised (AttributeError "NoneType has no attribute crop"), self)
  | Some original =>
    match PIL.crop original (left_, top, right_, bottom) with
    | inl e => (Raised e, self)
    | inr page_img =>
      let page_img :=
        if negb (fst (PIL.size page_img) =? page_width_px self) then
          let full_page :=
            PIL.new (PIL.mode original)
                    (page_width_px self, page_height_px self) PIL.white in
          if right_to_left self
          then PIL.paste full_page page_img
                 (page_width_px self - fst (PIL.size page_img), 0)
          else PIL.paste full_page page_img (0, 0)
        else page_img in
      match image_path self, output_dir self with
      | Some path, Some dir =>
        let base_name :=
          fst (os_path_splitext env (os_path_basename env path)) in
        let filename :=
          (base_name ++ "_page" ++ Py.format_03d page_num ++ ".png")%string in
        let output_path := os_path_join env dir filename in
        match Image_save env page_img output_path with
        | Some e => (Raised e, self)
        | None =>
          (Returned tt,
           notify (StatusExported filename) (add_file output_path page_img self))
        end
      | _, _ => (Raised (TypeError "expected str, not NoneType"), self)
      end
    end
  end.

Definition warn_load_first : action unit :=
  modify (notify (ShowWarning
    "Please load an image and set output directory first")).

(** [export_clicked_page], lines 416-433. *)
Definition export_clicked_page (canvas_x canvas_y : Z) : action unit :=
  fun self =>
  if negb (is_loaded self) || negb (truthy (output_dir self))
  then warn_load_first self
  else
    let img_x := (pan_x self + inject_Z canvas_x / zoom self)%Q in
    let page_num := page_num_at self img_x in
    if (1 <=? page_num) && (page_num <=? pages_x self)
    then export_page page_num self
    else (Returned tt, self).

(** [export_all_pages], lines 476-491; [confirm] is the answer to the
    yes/no box. *)
Definition export_all_pages (confirm : bool) : action unit := fun self =>
  if negb (is_loaded self) || negb (truthy (output_dir self))
  then warn_load_first self
  else
    let total := pages_x self in
    if negb confirm then (Returned tt, self)
    else
      (for_each (range 1 (pages_x self + 1)) (fun page_num =>
         export_page page_num ;;
         modify (notify (StatusExportingPage page_num total))) ;;
       dir <- gets output_dir ;;
       modify (notify (StatusExportedAll total
                         (match dir with Some d => d | None => EmptyString end))) ;;
       modify (notify (ShowInfoExported total))) self.

(** The loop of [export_visible_pages], lines 518-523: [exported] counts
    the calls of [export_page] that returned. *)
Fixpoint export_visible_loop (pages : list Z) (exported count : Z)
  : action Z :=
  match pages with
  | [] => ret exported
  | page_num :: rest =>
    export_page page_num ;;
    let exported := exported + 1 in
    modify (notify (StatusExportingVisible page_num exported count)) ;;
    export_visible_loop rest exported count
  end.

(** [export_visible_pages], lines 493-526. *)
Definition export_visible_pages (confirm : bool) : action unit := fun self =>
  if negb (is_loaded self) || negb (truthy (output_dir self))
  then warn_load_first self
  else
    let '(start_page, end_page) := visible_range self in
    let count := end_page - start_page + 1 in
    if negb confirm then (Returned tt, self)
    else
      (_ <- export_visible_loop (range start_page (end_page + 1)) 0 count ;;
       dir <- gets output_dir ;;
       modify (notify (StatusExportedVisible count
                         (match dir with Some d => d | None => EmptyString end))) ;;
       modify (notify (ShowInfoExported count))) self.

(** [load_image], lines 144-187. *)
Definition load_image (path : string) : action unit :=
  modify (notify (StatusLoading (os_path_basename env path))) ;;
  try_except
    (original <- call (Image_open env path) ;;
     modify (set_original_image (Some original)) ;;
     call (match Image_load env original with
           | Some e => inl e
           | None => inr tt
           end) ;;
     modify (set_image_path (Some path)) ;;
     modify (set_img_size (PIL.size original)) ;;
     modify (fun self =>
       set_pixels_per_inch
         (inject_Z (img_height self) / PAGE_HEIGHT_INCHES)%Q self) ;;
     modify (fun self =>
       set_page_width_px
         (Py.int (pixels_per_inch self * PAGE_WIDTH_INCHES)%Q) self) ;;
     modify (fun self => set_page_height_px (img_height self) self) ;;
     modify (set_start_offset 0) ;;
     P <- gets page_width_px ;;
     (if P =? 0 then raise ZeroDivisionError else ret tt) ;;
     modify (fun self =>
       set_pages_x
         (Py.ceil (inject_Z (img_width self) / inject_Z (page_width_px self)))
         self) ;;
     modify (set_pages_y 1) ;;
     modify (fun self => notify (InfoLabel (os_path_basename env path)
                                           (pages_x self)) self) ;;
     modify (fun self =>
       if negb (truthy (output_dir self))
       then set_output_dir (Some (os_path_dirname env path)) self
       else self) ;;
     modify fit_to_window ;;
     modify (notify StatusLoaded))
    (fun e =>
       modify (notify (ShowError "Error" e)) ;;
       modify (notify StatusErrorLoading)).

End WithCollaborators.

(** ** Vocabulary of the statements *)

(** A loaded raster with its pagination: the raster and the page are wider
    than zero, the start offset is a value the clamp of [on_right_click]
    can leave (at least 0, at most [max(0, img_width - page_width_px)]) and
    [pages_x] is the count computed from it (lines 165, 392 and 401). *)
Record paginated (self : PanoramaSlicer) : Prop := {
  pg_width : (0 < img_width self)%Z;
  pg_page : (0 < page_width_px self)%Z;
  pg_start_lo : (0 <= start_offset self)%Q;
  pg_start_hi :
    (start_offset self
     <= Qmax 0 (inject_Z (img_width self - page_width_px self)))%Q;
  pg_count :
    pages_x self =
    Py.ceil ((inject_Z (img_width self) - start_offset self)
             / inject_Z (page_width_px self))%Q
}.

(** The raster held in memory agrees with the recorded dimensions, as
    [load_image] leaves them (lines 153 and 159). *)
Record raster_loaded (self : PanoramaSlicer) (original : PIL.Image) : Prop := {
  rl_image : original_image self = Some original;
  rl_size : PIL.size original = (img_width self, img_height self);
  rl_height : (0 < img_height self)%Z;
  rl_page_height : page_height_px self = img_height self
}.


(** The horizontal midpoint of a page rectangle. *)
Definition midpoint (box : Q * Q) : Q := ((fst box + snd box) / 2)%Q.

(** The view after the clamping of [refresh_view]: a positive zoom, a
    canvas wider than zero and a horizontal pan offset inside
    [[0, max(0, img_width - view_w)]]. *)
Record view_clamped (self : PanoramaSlicer) : Prop := {
  vc_zoom : (0 < zoom self)%Q;
  vc_canvas : (0 < canvas_width self)%Z;
  vc_pan_lo : (0 <= pan_x self)%Q;
  vc_pan_hi :
    (pan_x self
     <= Qmax 0 (inject_Z (img_width self)
                - inject_Z (canvas_width self) / zoom self))%Q
}.

(** ** Concrete rasters, collaborators and sessions *)

(** A raster whose pixel at [(x, y)] records its own coordinates; no pixel
    of it is white while [x < 65280]. *)
Definition coordinate_raster (w h : Z) : PIL.Image :=
  {| PIL.mode := "RGB";
     PIL.size := (w, h);
     PIL.getpixel := fun x y => (x mod 256, x / 256, y mod 256) |}.

(** Collaborators that decode every path to [img] and save everywhere
    except at the paths [refused] rejects. *)
Definition collaborators_for (img : PIL.Image) (refused : string -> bool)
  : Collaborators :=
  {| Image_open := fun _ => inr img;
     Image_load := fun _ => None;
     Image_save := fun _ path =>
       if refused path then Some (OSError "Permission denied") else None;
     os_path_basename := fun p => p;
     os_path_dirname := fun _ => "out"%string;
     os_path_splitext := fun p => (p, EmptyString);
     os_path_join := fun d f => (d ++ "/" ++ f)%string |}.

Definition writable_everywhere : string -> bool := fun _ => false.

(** A 3000 x 773 raster (pages of 1000 pixels) opened on a 1000 x 800
    canvas. *)
Definition session_3000 : PanoramaSlicer :=
  snd (load_image (collaborators_for (coordinate_raster 3000 773)
                                     writable_everywhere)
                  "pano" (init 1000 800)).

(** The same session, left to right at 100%, after a right click at image
    coordinate 1500 (three Shift-Right steps from the left edge) and three
    Shift-Left steps back: the view shows [[0, 1000]], the pages start at
    1500. *)
Definition session_view_before_start : PanoramaSlicer :=
  let click := {| num := 3; delta := 0; ev_x := 0; ev_y := 0 |} in
  let shift_right := pan_by 500 0 in
  let shift_left := pan_by (-500) 0 in
  shift_left (shift_left (shift_left
    (on_right_click click
       (shift_right (shift_right (shift_right
          (zoom_100 (toggle_right_to_left session_3000)))))))).

(** A right click at a canvas position. *)
Definition right_click_at (x y : Z) : Event :=
  {| num := 3; delta := 0; ev_x := x; ev_y := y |}.

(** A 200000 x 773 panorama and a 10 x 10 thumbnail, each opened on a
    1000 x 800 canvas. *)
Definition session_wide : PanoramaSlicer :=
  snd (load_image (collaborators_for (coordinate_raster 200000 773)
                                     writable_everywhere)
                  "wide" (init 1000 800)).

Definition session_tiny : PanoramaSlicer :=
  snd (load_image (collaborators_for (coordinate_raster 10 10)
                                     writable_everywhere)
                  "tiny" (init 1000 800)).

(** The canvas size [fit_to_window] works with, lines 192-195. *)
Definition fit_canvas (self : PanoramaSlicer) : Z * Z :=
  if (canvas_width self <? 10) || (canvas_height self <? 10)
  then (1400, 800)%Z
  else (canvas_width self, canvas_height self).






(** The boundary scenario: a 2500 x 773 raster (pages of 1000 pixels),
    right to left as loaded and left to right after the toggle. *)
Definition session_2500_rtl : PanoramaSlicer :=
  snd (load_image (collaborators_for (coordinate_raster 2500 773)
                                     writable_everywhere)
                  "pano" (init 1000 800)).

Definition session_2500_ltr : PanoramaSlicer :=
  toggle_right_to_left session_2500_rtl.



Definition collaborators_3000 (refused : string -> bool) : Collaborators :=
  collaborators_for (coordinate_raster 3000 773) refused.

(** The name and the path [export_page] gives the file of a page, lines
    467-469. *)
Definition page_filename (env : Collaborators) (path : string) (page_num : Z)
  : string :=
  (fst (os_path_splitext env (os_path_basename env path))
   ++ "_page" ++ Py.format_03d page_num ++ ".png")%string.




(** Collaborators for a truncated file: the header opens as a 10 x 10
    image, decoding the pixels raises. *)
Definition collaborators_truncated : Collaborators :=
  {| Image_open := fun _ => inr (coordinate_raster 10 10);
     Image_load := fun _ => Some (OSError "image file is truncated");
     Image_save := fun _ _ => None;
     os_path_basename := fun p => p;
     os_path_dirname := fun _ => "out"%string;
     os_path_splitext := fun p => (p, EmptyString);
     os_path_join := fun d f => (d ++ "/" ++ f)%string |}.

(** The page width [load_image] derives from the raster height, lines
    157-158. *)
Definition page_width_for (height : Z) : Z :=
  Py.int (inject_Z height / PAGE_HEIGHT_INCHES * PAGE_WIDTH_INCHES)%Q.

(** ** Further methods: display, overlay, mouse and printing *)

(** [refresh_view], lines 235-239: the region of the raster that is shown,
    computed from the pan offset that the clamping above it has left. *)
Definition view_crop (self : PanoramaSlicer) : Z * Z * Z * Z :=
  let view_w := (inject_Z (canvas_width self) / zoom self)%Q in
  let view_h := (inject_Z (canvas_height self) / zoom self)%Q in
  let left_ := Py.int (pan_x self) in
  let top := Py.int (pan_y self) in
  let right_ :=
    Py.int (Py.min (pan_x self + view_w)%Q (inject_Z (img_width self))) in
  let bottom :=
    Py.int (Py.min (pan_y self + view_h)%Q (inject_Z (img_height self))) in
  (left_, top, right_, bottom).



(** The drag bookkeeping of [on_mouse_down], [on_mouse_drag] and
    [on_mouse_up]: the attributes [drag_start_x], [drag_start_y],
    [drag_pan_x], [drag_pan_y] and [is_dragging], kept beside the state. *)
Record Drag : Type := {
  drag_start_x : Z;
  drag_start_y : Z;
  drag_pan_x : Q;
  drag_pan_y : Q;
  is_dragging : bool
}.

(** [on_mouse_down], lines 303-308. *)
Definition on_mouse_down (event : Event) (self : PanoramaSlicer) : Drag :=
  {| drag_start_x := ev_x event;
     drag_start_y := ev_y event;
     drag_pan_x := pan_x self;
     drag_pan_y := pan_y self;
     is_dragging := false |}.

(** [on_mouse_drag], lines 310-319. *)
Definition on_mouse_drag (event : Event) (st : PanoramaSlicer * Drag)
  : PanoramaSlicer * Drag :=
  let '(self, drag) := st in
  let dx := (ev_x event - drag_start_x drag)%Z in
  let dy := (ev_y event - drag_start_y drag)%Z in
  let drag :=
    if (5 <? Z.abs dx)%Z || (5 <? Z.abs dy)%Z
    then {| drag_start_x := drag_start_x drag;
            drag_start_y := drag_start_y drag;
            drag_pan_x := drag_pan_x drag;
            drag_pan_y := drag_pan_y drag;
            is_dragging := true |}
    else drag in
  let self :=
    set_pan (drag_pan_x drag - inject_Z dx / zoom self)%Q
            (drag_pan_y drag - inject_Z dy / zoom self)%Q self in
  (refresh_view self, drag).

(** [on_mouse_up], lines 321-324. *)
Definition on_mouse_up (env : Collaborators) (event : Event) (drag : Drag)
  : action unit := fun self =>
  if negb (is_dragging drag) && is_loaded self
  then export_clicked_page env (ev_x event) (ev_y event) self
  else (Returned tt, self).

(** The choice of pages in the print dialog; a range entry is the integer
    that [int()] reads from the text, or [None] when [int()] raises
    [ValueError]. *)
Inductive page_choice : Type :=
| ChoiceAll
| ChoiceVisible
| ChoiceRange (range_from range_to : option Z).

Inductive print_request : Type :=
| InvalidPageRange
| NoPagesToPrint
| PrintPages (pages : list Z).

(** [do_print], lines 598-619: the pages handed to [print_pages]. *)
Definition do_print (choice : page_choice) (self : PanoramaSlicer)
  : print_request :=
  let checked pages :=
    match pages with
    | [] => NoPagesToPrint
    | _ => PrintPages pages
    end in
  match choice with
  | ChoiceAll => checked (range 1 (pages_x self + 1))
  | ChoiceVisible => checked (get_visible_page_numbers self)
  | ChoiceRange (Some start) (Some end_) =>
    checked (range (Z.max 1 start) (Z.min (pages_x self) end_ + 1))
  | ChoiceRange _ _ => InvalidPageRange
  end.



(** Reading a page number back from its decimal digits. *)
Definition read_digits (s : string) : option Z :=
  option_map (fun d => Z.of_N (N.of_uint d)) (NilEmpty.uint_of_string s).

(** The pan offset lies in the range [refresh_view] clamps it to, on both
    axes (lines 229-233). *)
Definition pan_clamped (self : PanoramaSlicer) : Prop :=
  let view_w := (inject_Z (canvas_width self) / zoom self)%Q in
  let view_h := (inject_Z (canvas_height self) / zoom self)%Q in
  (0 <= pan_x self /\
   pan_x self <= Qmax 0 (inject_Z (img_width self) - view_w) /\
   0 <= pan_y self /\
   pan_y self <= Qmax 0 (inject_Z (img_height self) - view_h))%Q.

(** A scroll of the wheel at a canvas position, up or down. *)
Definition scroll_at (up : bool) (x y : Z) : Event :=
  Build_Event 0 (if up then 120 else (-120)) x y.

(** The state [s] with other files and messages: what the export methods
    may change. *)
Definition with_output (fs : list (string * PIL.Image)) (us : list ui_event)
           (s : PanoramaSlicer) : PanoramaSlicer :=
  mkSlicer (original_image s) (image_path s) (img_width s) (img_height s)
    (pixels_per_inch s) (page_width_px s) (page_height_px s) (zoom s)
    (pan_x s) (pan_y s) (right_to_left s) (start_offset s) (pages_x s)
    (pages_y s) (output_dir s) (canvas_width s) (canvas_height s) fs us.

(** ** Proof steps *)


(** Unfolding of the attribute assignments. *)
Ltac assignments :=
  unfold set_original_image, set_image_path, set_img_size,
    set_pixels_per_inch, set_page_width_px, set_page_height_px, set_zoom,
    set_pan, set_right_to_left, set_start_offset, set_pages_x, set_pages_y,
    set_output_dir, add_file, notify;
  cbn [original_image image_path img_width img_height pixels_per_inch
       page_width_px page_height_px zoom pan_x pan_y right_to_left
       start_offset pages_x pages_y output_dir canvas_width canvas_height
       files ui fst snd].

(** Evaluation of a closed comparison or equation. *)
Ltac evaluated :=
  vm_compute; repeat split; first [ reflexivity | discriminate ].

(** * Properties *)

(** ** Arithmetic of floor, ceiling and rounding *)

Local Open Scope Q_scope.

Lemma inject_Z_pos (z : Z) : (0 < z)%Z -> 0 < inject_Z z.
Proof. intro H. change 0 with (inject_Z 0). now rewrite <- Zlt_Qlt. Qed.

Lemma Qfloor_unique (y : Q) (k : Z) :
  inject_Z k <= y -> y < inject_Z (k + 1) -> Qfloor y = k.
Proof.
  intros Hlo Hhi.
  pose proof (Qfloor_le y) as Hf.
  pose proof (Qlt_floor y) as Hg.
  assert (inject_Z (Qfloor y) < inject_Z (k + 1)) as H1 by lra.
  assert (inject_Z k < inject_Z (Qfloor y + 1)) as H2 by lra.
  rewrite <- Zlt_Qlt in H1, H2. lia.
Qed.

Lemma Qceiling_unique (y : Q) (k : Z) :
  inject_Z (k - 1) < y -> y <= inject_Z k -> Qceiling y = k.
Proof.
  intros Hlo Hhi.
  pose proof (Qle_ceiling y) as Hf.
  pose proof (Qceiling_lt y) as Hg.
  assert (inject_Z (Qceiling y - 1) < inject_Z k) as H1 by lra.
  assert (inject_Z (k - 1) < inject_Z (Qceiling y)) as H2 by lra.
  rewrite <- Zlt_Qlt in H1, H2. lia.
Qed.

(** [x // P = k] exactly when [k * P <= x < (k + 1) * P]. *)
Lemma floordiv_unique (x : Q) (P k : Z) :
  (0 < P)%Z ->
  inject_Z (k * P) <= x -> x < inject_Z ((k + 1) * P) ->
  Py.floordiv x (inject_Z P) = k.
Proof.
  intros HP Hlo Hhi. unfold Py.floordiv.
  pose proof (inject_Z_pos P HP) as HPq.
  rewrite inject_Z_mult in Hlo, Hhi.
  apply Qfloor_unique.
  - apply Qle_shift_div_l; assumption.
  - apply Qlt_shift_div_r; assumption.
Qed.

Lemma floordiv_bounds (x : Q) (P : Z) :
  (0 < P)%Z ->
  inject_Z (Py.floordiv x (inject_Z P) * P) <= x /\
  x < inject_Z ((Py.floordiv x (inject_Z P) + 1) * P).
Proof.
  intro HP. unfold Py.floordiv.
  pose proof (inject_Z_pos P HP) as HPq.
  pose proof (Qfloor_le (x / inject_Z P)) as Hf.
  pose proof (Qlt_floor (x / inject_Z P)) as Hg.
  rewrite !inject_Z_mult.
  assert (x == x / inject_Z P * inject_Z P) as Hx by (field; lra).
  split.
  - rewrite Hx at 2. apply Qmult_le_compat_r; lra.
  - rewrite Hx at 1. apply Qmult_lt_compat_r; lra.
Qed.

(** [ceil(x / P) = k] exactly when [(k - 1) * P < x <= k * P]. *)
Lemma ceil_div_bounds (x : Q) (P : Z) :
  (0 < P)%Z ->
  inject_Z ((Py.ceil (x / inject_Z P) - 1) * P) < x /\
  x <= inject_Z (Py.ceil (x / inject_Z P) * P).
Proof.
  intro HP. unfold Py.ceil.
  pose proof (inject_Z_pos P HP) as HPq.
  pose proof (Qle_ceiling (x / inject_Z P)) as Hf.
  pose proof (Qceiling_lt (x / inject_Z P)) as Hg.
  rewrite !inject_Z_mult.
  assert (x == x / inject_Z P * inject_Z P) as Hx by (field; lra).
  split.
  - rewrite Hx at 2. apply Qmult_lt_compat_r; lra.
  - rewrite Hx at 1. apply Qmult_le_compat_r; lra.
Qed.

Lemma ceil_div_unique (x : Q) (P k : Z) :
  (0 < P)%Z ->
  inject_Z ((k - 1) * P) < x -> x <= inject_Z (k * P) ->
  Py.ceil (x / inject_Z P) = k.
Proof.
  intros HP Hlo Hhi. unfold Py.ceil.
  pose proof (inject_Z_pos P HP) as HPq.
  rewrite inject_Z_mult in Hlo, Hhi.
  apply Qceiling_unique.
  - apply Qlt_shift_div_l; assumption.
  - apply Qle_shift_div_r; assumption.
Qed.

(** Products of integers, compared after injection. *)
Lemma inject_Z_mul_le (a b P : Z) :
  (0 < P)%Z -> (a <= b)%Z -> inject_Z (a * P) <= inject_Z (b * P).
Proof. intros HP H. rewrite <- Zle_Qle. nia. Qed.

Lemma inject_Z_mul_succ (a P : Z) :
  inject_Z ((a + 1) * P) == inject_Z (a * P) + inject_Z P.
Proof. rewrite <- inject_Z_plus. apply inject_Z_injective. ring. Qed.

Lemma inject_Z_mul_pred (a P : Z) :
  inject_Z ((a - 1) * P) == inject_Z (a * P) - inject_Z P.
Proof.
  unfold Qminus. rewrite <- inject_Z_opp, <- inject_Z_plus.
  apply inject_Z_injective. ring.
Qed.





(** ** The page grid *)

Section PageGrid.

Variable self : PanoramaSlicer.
Hypothesis Hpg : paginated self.

Let W := inject_Z (img_width self).
Let P := inject_Z (page_width_px self).
Let s := start_offset self.

Lemma page_width_pos : 0 < P.
Proof. apply inject_Z_pos, Hpg. Qed.

(** The pages before the last one end strictly inside the paged span. *)
Lemma pages_fit (n : Z) :
  (n <= pages_x self)%Z ->
  inject_Z ((n - 1) * page_width_px self) < W - s.
Proof.
  intro Hn.
  destruct (ceil_div_bounds (inject_Z (img_width self) - start_offset self)
              (page_width_px self) (pg_page _ Hpg))
    as [Hlo _].
  rewrite <- (pg_count _ Hpg) in Hlo. fold W s in Hlo.
  eapply Qle_lt_trans; [ | exact Hlo ].
  apply inject_Z_mul_le; [ apply Hpg | lia ].
Qed.

Lemma pages_reach (n : Z) :
  (pages_x self <= n)%Z ->
  W - s <= inject_Z (n * page_width_px self).
Proof.
  intro Hn.
  destruct (ceil_div_bounds (inject_Z (img_width self) - start_offset self)
              (page_width_px self) (pg_page _ Hpg))
    as [_ Hhi].
  rewrite <- (pg_count _ Hpg) in Hhi. fold W s in Hhi.
  eapply Qle_trans; [ exact Hhi | ].
  apply inject_Z_mul_le; [ apply Hpg | lia ].
Qed.

Lemma start_below_width : s < W.
Proof.
  pose proof (pg_start_hi _ Hpg) as Hhi. fold s in Hhi.
  pose proof page_width_pos as HP.
  assert (0 < W) as HW by (apply inject_Z_pos, Hpg).
  unfold Zminus in Hhi. rewrite inject_Z_plus, inject_Z_opp in Hhi.
  fold W P in Hhi.
  destruct (Q.max_spec 0 (W + - P)) as [[_ E]|[_ E]];
    rewrite E in Hhi; lra.
Qed.

Lemma pages_x_pos : (1 <= pages_x self)%Z.
Proof.
  pose proof start_below_width as Hs.
  destruct (ceil_div_bounds (inject_Z (img_width self) - start_offset self)
              (page_width_px self) (pg_page _ Hpg))
    as [_ Hhi].
  rewrite <- (pg_count _ Hpg) in Hhi. fold W s in Hhi.
  assert (inject_Z (0 * page_width_px self)
          < inject_Z (pages_x self * page_width_px self)) as H.
  { simpl (0 * _)%Z. change (inject_Z 0) with 0. lra. }
  rewrite <- Zlt_Qlt in H. pose proof (pg_page _ Hpg). nia.
Qed.

End PageGrid.


(** The rectangle in a form fit for linear arithmetic. *)
Lemma page_box_spec (self : PanoramaSlicer) (page_num : Z) :
  let left_ := fst (page_box self page_num) in
  let right_ := snd (page_box self page_num) in
  let W := inject_Z (img_width self) in
  let P := inject_Z (page_width_px self) in
  let k := inject_Z ((page_num - 1) * page_width_px self) in
  if right_to_left self
  then right_ == W - start_offset self - k /\
       ((right_ - P <= 0 /\ left_ == 0) \/ (0 <= right_ - P /\ left_ == right_ - P))
  else left_ == start_offset self + k /\
       ((left_ + P <= W /\ right_ == left_ + P) \/ (W <= left_ + P /\ right_ == W)).
Proof.
  intros left_ right_ W P k.
  unfold page_box, Py.max, Py.min in left_, right_.
  destruct (right_to_left self); cbn [fst snd] in left_, right_;
    fold W P k in left_, right_.
  - split; [ reflexivity | ].
    pose proof (Q.max_spec 0 (right_ - P)) as E.
    change (Qmax 0 (right_ - P)) with left_ in E.
    clearbody left_ right_.
    destruct E as [[Hc E]|[Hc E]]; [ right | left ]; split; lra.
  - split; [ reflexivity | ].
    pose proof (Q.min_spec (left_ + P) W) as E.
    change (Qmin (left_ + P) W) with right_ in E.
    clearbody right_ left_.
    destruct E as [[Hc E]|[Hc E]]; [ left | right ]; split; lra.
Qed.

(** C3.  For a raster and a page wider than zero, either direction, a
    clamped start offset and a page number [n] between 1 and the page
    count, the page lookup of [on_mouse_move] and [export_clicked_page]
    (floor division of the distance from the anchor by the page width, plus
    1), applied to the horizontal midpoint of the rectangle of page [n],
    returns [n]. *)
Theorem page_lookup_of_midpoint (self : PanoramaSlicer) (n : Z) :
  paginated self ->
  (1 <= n <= pages_x self)%Z ->
  page_num_at self (midpoint (page_box self n)) = n.
Proof.
  intros Hpg [Hlo Hhi].
  pose proof (pages_fit self Hpg n Hhi) as Hfit.
  pose proof (page_width_pos self Hpg) as HP.
  pose proof (pg_start_lo _ Hpg) as Hs.
  pose proof (page_box_spec self n) as Hbox.
  pose proof (inject_Z_mul_succ (n - 1) (page_width_px self)) as Hsucc.
  unfold page_num_at, midpoint.
  cbv zeta in Hbox.
  set (left_ := fst (page_box self n)) in *.
  set (right_ := snd (page_box self n)) in *.
  set (W := inject_Z (img_width self)) in *.
  set (P := inject_Z (page_width_px self)) in *.
  set (k := inject_Z ((n - 1) * page_width_px self)) in *.
  clearbody left_ right_.
  assert (forall d : Q, k <= d -> d < k + P ->
            (Py.floordiv d P + 1 = n)%Z) as Hdiv.
  { intros d H1 H2.
    assert (Py.floordiv d P = (n - 1)%Z) as E; [ | lia ].
    apply floordiv_unique; [ apply Hpg | exact H1 | ].
    rewrite Hsucc. exact H2. }
  clear Hsucc. clearbody W P k.
  destruct (right_to_left self).
  - destruct Hbox as [Hr [[Hc Hl]|[Hc Hl]]]; apply Hdiv;
      unfold Qdiv; change (/ 2) with (1 # 2); lra.
  - destruct Hbox as [Hl [[Hc Hr]|[Hc Hr]]]; apply Hdiv;
      unfold Qdiv; change (/ 2) with (1 # 2); lra.
Qed.


Lemma inject_Z_mul_lt_inv (a b P : Z) :
  (0 < P)%Z -> inject_Z (a * P) < inject_Z (b * P) -> (a < b)%Z.
Proof. intros HP H. rewrite <- Zlt_Qlt in H. nia. Qed.




(** ** The visible page range *)

Lemma floordiv_monotone (x y : Q) (P : Z) :
  (0 < P)%Z -> x <= y ->
  (Py.floordiv x (inject_Z P) <= Py.floordiv y (inject_Z P))%Z.
Proof.
  intros HP Hxy.
  destruct (floordiv_bounds x P HP) as [Hx _].
  destruct (floordiv_bounds y P HP) as [_ Hy].
  assert (Py.floordiv x (inject_Z P) < Py.floordiv y (inject_Z P) + 1)%Z;
    [ | lia ].
  apply (inject_Z_mul_lt_inv _ _ P HP). lra.
Qed.

Lemma floordiv_nonneg_iff (x : Q) (P : Z) :
  (0 < P)%Z -> (0 <= Py.floordiv x (inject_Z P))%Z <-> 0 <= x.
Proof.
  intro HP. destruct (floordiv_bounds x P HP) as [Hlo Hhi]. split.
  - intro H. apply Qle_trans with (2 := Hlo).
    change 0 with (inject_Z 0). rewrite <- Zle_Qle. nia.
  - intro H.
    assert (0 < Py.floordiv x (inject_Z P) + 1)%Z; [ | lia ].
    apply (inject_Z_mul_lt_inv 0 _ P HP). simpl (0 * _)%Z.
    change (inject_Z 0) with 0. lra.
Qed.

Lemma In_range (a b n : Z) : In n (range a b) <-> (a <= n < b)%Z.
Proof.
  unfold range. rewrite in_map_iff. split.
  - intros [i [Hi Hin]]. apply in_seq in Hin. lia.
  - intros [H1 H2]. exists (Z.to_nat (n - a)). split; [ lia | ].
    apply in_seq. lia.
Qed.

(** What [refresh_view] leaves is a clamped view. *)
Lemma refresh_view_clamps (self : PanoramaSlicer) :
  is_loaded self = true -> 0 < zoom self -> (0 < canvas_width self)%Z ->
  view_clamped (refresh_view self).
Proof.
  intros Hl Hz Hc. unfold refresh_view. rewrite Hl. cbn [negb].
  constructor; cbn; try assumption; unfold Py.max, Py.min.
  - apply Q.le_max_l.
  - set (m := Qmax 0 (inject_Z (img_width self)
                      - inject_Z (canvas_width self) / zoom self)).
    apply Q.max_lub.
    + apply Q.le_max_l.
    + apply Q.le_min_r.
Qed.

(** C7, the claim as stated fails.  Left to right with the pages starting
    at 1500 and the view showing [[0, 1000]], state and view are clamped,
    yet the computed range is (1, 0): the end page is below the start
    page. *)
Lemma visible_range_empty_before_start :
  paginated session_view_before_start /\
  view_clamped session_view_before_start /\
  visible_range session_view_before_start = (1, 0)%Z /\
  get_visible_page_numbers session_view_before_start = [] /\
  ~ (let '(start_page, end_page) := visible_range session_view_before_start in
     (1 <= start_page)%Z /\ (start_page <= end_page)%Z /\
     (end_page <= pages_x session_view_before_start)%Z).
Proof.
  split; [ | split; [ | split; [ | split ] ] ].
  - constructor; vm_compute; try reflexivity; discriminate.
  - constructor; vm_compute; try reflexivity; discriminate.
  - vm_compute. reflexivity.
  - vm_compute. reflexivity.
  - vm_compute. intros [_ [H _]]. apply H. reflexivity.
Qed.

(** C7, amended.  For a loaded raster, either direction, a clamped start
    offset and a clamped view, the visible page range satisfies
    [1 <= start_page <= pages_x] and [end_page <= pages_x], and every page
    number of the list it yields lies in [[1, pages_x]];
    [start_page <= end_page] holds exactly when the view reaches the start
    anchor (left to right: [start_offset <= view_right]; right to left:
    [view_left <= img_width - start_offset]), and otherwise the range is
    empty. *)
Theorem visible_range_within_pages (self : PanoramaSlicer) :
  paginated self ->
  view_clamped self ->
  let view_left := pan_x self in
  let view_right := pan_x self + inject_Z (canvas_width self) / zoom self in
  let start_page := fst (visible_range self) in
  let end_page := snd (visible_range self) in
  (1 <= start_page <= pages_x self)%Z /\
  (end_page <= pages_x self)%Z /\
  ((start_page <= end_page)%Z <->
   (if right_to_left self
    then view_left <= inject_Z (img_width self) - start_offset self
    else start_offset self <= view_right)) /\
  (forall n, In n (get_visible_page_numbers self) ->
             (1 <= n <= pages_x self)%Z).
Proof.
  intros Hpg Hvc view_left view_right start_page end_page.
  pose proof (pg_page _ Hpg) as HPz.
  pose proof (pages_x_pos self Hpg) as HN.
  pose proof (pages_reach self Hpg (pages_x self) ltac:(lia)) as Hreach.
  pose proof (pg_start_lo _ Hpg) as Hs.
  assert (0 < inject_Z (img_width self)) as HW by (apply inject_Z_pos, Hpg).
  assert (view_left < view_right) as Hview.
  { subst view_left view_right.
    assert (0 < inject_Z (canvas_width self) / zoom self); [ | lra ].
    apply Qlt_shift_div_l; [ apply Hvc | ].
    rewrite Qmult_0_l. apply inject_Z_pos, Hvc. }
  assert (0 <= view_left /\ view_left < inject_Z (img_width self))
    as [Hvl0 HvlW].
  { pose proof (vc_pan_lo _ Hvc) as H0. pose proof (vc_pan_hi _ Hvc) as H1.
    subst view_left view_right.
    set (vw := inject_Z (canvas_width self) / zoom self) in *.
    destruct (Q.max_spec 0 (inject_Z (img_width self) - vw)) as [[_ E]|[_ E]];
      rewrite E in H1; split; lra. }
  set (P := page_width_px self) in *.
  set (A := inject_Z (img_width self) - start_offset self) in *.
  set (a := if right_to_left self
            then (Py.floordiv (A - view_right) (inject_Z P) + 1)%Z
            else (Py.floordiv (view_left - start_offset self) (inject_Z P) + 1)%Z).
  set (b := if right_to_left self
            then (Py.floordiv (A - view_left) (inject_Z P) + 1)%Z
            else (Py.floordiv (view_right - start_offset self) (inject_Z P) + 1)%Z).
  assert (start_page = Z.max 1 a /\ end_page = Z.min (pages_x self) b)
    as [Esp Eep].
  { subst start_page end_page a b. unfold visible_range.
    destruct (right_to_left self); split; reflexivity. }
  assert (a <= b)%Z as Hab.
  { subst a b. destruct (right_to_left self);
      apply Z.add_le_mono_r, floordiv_monotone; try assumption; lra. }
  assert (a <= pages_x self)%Z as HaN.
  { assert (a - 1 < pages_x self)%Z; [ | lia ].
    apply (inject_Z_mul_lt_inv _ _ P HPz). subst a.
    destruct (right_to_left self).
    - destruct (floordiv_bounds (A - view_right) P HPz) as [H _].
      replace (Py.floordiv (A - view_right) (inject_Z P) + 1 - 1)%Z
        with (Py.floordiv (A - view_right) (inject_Z P)) by lia. lra.
    - destruct (floordiv_bounds (view_left - start_offset self) P HPz)
        as [H _].
      replace (Py.floordiv (view_left - start_offset self) (inject_Z P)
               + 1 - 1)%Z
        with (Py.floordiv (view_left - start_offset self) (inject_Z P))
        by lia.
      subst A. lra. }
  assert ((1 <= b)%Z <->
          (if right_to_left self then view_left <= A
           else start_offset self <= view_right)) as Hb.
  { subst b. destruct (right_to_left self).
    - pose proof (floordiv_nonneg_iff (A - view_left) P HPz) as H.
      split; intro H'.
      + assert (0 <= A - view_left) by (apply H; lia). lra.
      + assert (0 <= Py.floordiv (A - view_left) (inject_Z P))%Z
          by (apply H; lra). lia.
    - pose proof (floordiv_nonneg_iff (view_right - start_offset self) P HPz)
        as H.
      split; intro H'.
      + assert (0 <= view_right - start_offset self) by (apply H; lia). lra.
      + assert (0 <= Py.floordiv (view_right - start_offset self)
                                 (inject_Z P))%Z
          by (apply H; lra). lia. }
  assert ((1 <= start_page <= pages_x self)%Z /\ (end_page <= pages_x self)%Z)
    as [Hsp Hep] by lia.
  split; [ exact Hsp | split; [ exact Hep | split ] ].
  - rewrite <- Hb. lia.
  - intros n Hn. unfold get_visible_page_numbers in Hn.
    destruct (visible_range self) as [sp ep] eqn:E.
    cbn [fst snd] in *. subst start_page end_page.
    apply In_range in Hn. lia.
Qed.

(** ** Resetting and setting the start *)

(** What [reset_start] and [on_right_click] leave in the fields. *)
Lemma reset_start_fields (self : PanoramaSlicer) (original : PIL.Image) :
  original_image self = Some original ->
  let st := reset_start self in
  original_image st = Some original /\
  img_width st = img_width self /\
  page_width_px st = page_width_px self /\
  right_to_left st = right_to_left self /\
  zoom st = zoom self /\
  start_offset st = 0 /\
  pages_x st =
    Py.ceil (inject_Z (img_width self) / inject_Z (page_width_px self)).
Proof.
  intro Hl. destruct self. cbn in Hl. subst.
  unfold reset_start, refresh_view, is_loaded. cbn.
  repeat split; reflexivity.
Qed.

Lemma on_right_click_fields (self : PanoramaSlicer) (event : Event)
      (original : PIL.Image) :
  original_image self = Some original ->
  let st := on_right_click event self in
  let img_x := pan_x self + inject_Z (ev_x event) / zoom self in
  let raw :=
    if right_to_left self then inject_Z (img_width self) - img_x else img_x in
  original_image st = Some original /\
  img_width st = img_width self /\
  page_width_px st = page_width_px self /\
  right_to_left st = right_to_left self /\
  start_offset st =
    Py.max 0 (Py.min raw (inject_Z (img_width self - page_width_px self))) /\
  pages_x st =
    Py.ceil ((inject_Z (img_width self) - start_offset st)
             / inject_Z (page_width_px self)).
Proof.
  intro Hl. destruct self. cbn in Hl. subst.
  unfold on_right_click, refresh_view, is_loaded. cbn.
  destruct right_to_left0; cbn; repeat split; reflexivity.
Qed.

(** The handlers that set the pagination leave a consistent pagination. *)
Lemma reset_start_paginated (self : PanoramaSlicer) (original : PIL.Image) :
  original_image self = Some original ->
  (0 < img_width self)%Z -> (0 < page_width_px self)%Z ->
  paginated (reset_start self).
Proof.
  intros Hl HW HP.
  destruct (reset_start_fields self original Hl)
    as (_ & EW & EP & _ & _ & Es & En).
  constructor; rewrite ?EW, ?EP, ?Es, ?En; try assumption.
  - lra.
  - apply Q.le_max_l.
  - unfold Py.ceil.
    assert (inject_Z (img_width self) - 0 == inject_Z (img_width self)) as E
      by ring.
    now rewrite E.
Qed.


Lemma inject_Z_minus (a b : Z) : inject_Z (a - b) == inject_Z a - inject_Z b.
Proof.
  unfold Z.sub, Qminus. now rewrite inject_Z_plus, inject_Z_opp.
Qed.

(** The clamp of [on_right_click], line 388. *)
Lemma clamp_start_spec (raw : Q) (W P : Z) :
  let c := Py.max 0 (Py.min raw (inject_Z (W - P))) in
  0 <= c /\
  ((raw <= 0 \/ inject_Z W - inject_Z P <= 0) -> c == 0) /\
  (0 <= inject_Z W - inject_Z P -> inject_Z W - inject_Z P <= raw ->
   c == inject_Z W - inject_Z P) /\
  (0 <= raw -> raw <= inject_Z W - inject_Z P -> c == raw).
Proof.
  intro c. subst c. unfold Py.max, Py.min.
  pose proof (inject_Z_minus W P) as E.
  set (b := inject_Z (W - P)) in *.
  destruct (Q.min_spec raw b) as [[H1 E1]|[H1 E1]];
  set (m := Qmin raw b) in *;
  destruct (Q.max_spec 0 m) as [[H2 E2]|[H2 E2]];
  set (c := Qmax 0 m) in *; clearbody c m b;
  repeat split; intros; try lra.
  all: destruct H as [H|H]; lra.
Qed.

(** C4, the claim as stated fails right to left.  On the 3000 pixel
    raster with pages of 1000, freshly loaded: start offset 0 and 3 pages.
    After [reset_start] and a right click at image coordinate 0 the start
    offset is 2000 and there is 1 page. *)
Lemma reset_then_set_start_zero_rtl :
  let st0 := reset_start session_3000 in
  let st := on_right_click (right_click_at 0 0) st0 in
  right_to_left session_3000 = true /\
  pan_x st0 + inject_Z 0 / zoom st0 == 0 /\
  (start_offset session_3000 == 0 /\ pages_x session_3000 = 3%Z) /\
  (start_offset st == 2000 /\ pages_x st = 1%Z) /\
  ~ (start_offset st == start_offset session_3000 /\
     pages_x st = pages_x session_3000).
Proof.
  vm_compute. repeat split; try reflexivity.
  intros [H _]. discriminate H.
Qed.

(** C4, amended.  For a loaded raster, [reset_start] followed by a right
    click at image coordinate 0 yields, left to right, the freshly loaded
    pagination (start offset 0, [ceil(img_width / page_width_px)] pages);
    right to left it yields the start offset
    [max(0, img_width - page_width_px)] and 1 page, which is the freshly
    loaded pagination exactly when the raster is no wider than a page. *)
Theorem reset_then_set_start_at_zero
        (self : PanoramaSlicer) (event : Event) (original : PIL.Image) :
  original_image self = Some original ->
  (0 < img_width self)%Z -> (0 < page_width_px self)%Z ->
  let st0 := reset_start self in
  pan_x st0 + inject_Z (ev_x event) / zoom st0 == 0 ->
  let st := on_right_click event st0 in
  let fresh_count :=
    Py.ceil (inject_Z (img_width self) / inject_Z (page_width_px self)) in
  (right_to_left self = false ->
   start_offset st == 0 /\ pages_x st = fresh_count) /\
  (right_to_left self = true ->
   start_offset st == Qmax 0 (inject_Z (img_width self - page_width_px self)) /\
   pages_x st = 1%Z /\
   ((start_offset st == 0 /\ pages_x st = fresh_count)
    <-> (img_width self <= page_width_px self)%Z)).
Proof.
  intros Hl HW HP st0 Hx st fresh_count.
  destruct (reset_start_fields self original Hl)
    as (Hl0 & EW0 & EP0 & Ed0 & _ & _ & _).
  fold st0 in Hl0, EW0, EP0, Ed0.
  destruct (on_right_click_fields st0 event original Hl0)
    as (_ & _ & _ & _ & Es & En).
  fold st in Es, En. rewrite EW0, EP0 in Es, En. rewrite Ed0 in Es.
  pose proof (inject_Z_pos _ HW) as HWq.
  pose proof (inject_Z_pos _ HP) as HPq.
  set (img_x := pan_x st0 + inject_Z (ev_x event) / zoom st0) in *.
  set (W := img_width self) in *. set (P := page_width_px self) in *.
  split; intro Hd; rewrite Hd in Es.
  - destruct (clamp_start_spec img_x W P) as (_ & Hz & _).
    rewrite <- Es in Hz.
    assert (start_offset st == 0) as E0 by (apply Hz; left; lra).
    split; [ exact E0 | ].
    rewrite En. subst fresh_count. unfold Py.ceil.
    apply Qceiling_comp. rewrite E0. unfold Qminus. now rewrite Qplus_0_r.
  - destruct (clamp_start_spec (inject_Z W - img_x) W P) as (_ & Hz & Hc & _).
    rewrite <- Es in Hz, Hc.
    pose proof (inject_Z_minus W P) as Em.
    assert (start_offset st == Qmax 0 (inject_Z (W - P)) /\
            inject_Z W - inject_Z P <= start_offset st /\
            start_offset st < inject_Z W /\
            (start_offset st == 0 <-> inject_Z W <= inject_Z P))
      as (Emax & Hge & Hlt & Hiff).
    { destruct (Q.max_spec 0 (inject_Z (W - P))) as [[H1 E1]|[H1 E1]];
        rewrite E1.
      - assert (start_offset st == inject_Z W - inject_Z P) as E
          by (apply Hc; lra).
        repeat split; try lra.
      - assert (start_offset st == 0) as E by (apply Hz; right; lra).
        repeat split; try lra. }
    assert (pages_x st = 1%Z) as E1.
    { rewrite En. apply ceil_div_unique; [ exact HP | | ].
      - simpl ((1 - 1) * P)%Z. change (inject_Z 0) with 0. lra.
      - rewrite Z.mul_1_l. lra. }
    split; [ exact Emax | split; [ exact E1 | ] ].
    rewrite E1. subst fresh_count. split.
    + intros [E0 Ec]. apply Hiff in E0. now rewrite <- Zle_Qle in E0.
    + intro Hle. rewrite Zle_Qle in Hle. split; [ now apply Hiff | ].
      symmetry. apply ceil_div_unique; [ exact HP | | ].
      * simpl ((1 - 1) * P)%Z. change (inject_Z 0) with 0. lra.
      * rewrite Z.mul_1_l. exact Hle.
Qed.

(** ** The zoom factor *)

Lemma view_handlers_zoom (self : PanoramaSlicer) (event : Event)
      (original : PIL.Image) :
  original_image self = Some original ->
  zoom (on_scroll event self) =
    Py.max (1 # 100)
      (Py.min 5 (zoom self *
                 (if (num event =? 4)%Z || (0 <? delta event)%Z
                  then 12 # 10 else 1 / (12 # 10)))) /\
  zoom (zoom_100 self) = 1 /\
  zoom (fit_to_window self) =
    Py.min (inject_Z (fst (fit_canvas self)) / inject_Z (img_width self))
           (inject_Z (snd (fit_canvas self)) / inject_Z (img_height self))
    * (95 # 100).
Proof.
  intro Hl. destruct self. cbn in Hl. subst.
  unfold on_scroll, zoom_100, fit_to_window, fit_canvas, refresh_view,
    is_loaded.
  cbn. repeat split; try reflexivity.
  destruct ((canvas_width0 <? 10)%Z || (canvas_height0 <? 10)%Z);
    reflexivity.
Qed.

(** C8, the claim as stated fails for fit to window.  A 200000 pixel wide
    panorama fitted on a 1000 x 800 canvas gets the zoom 0.00475, below
    0.01; a 10 x 10 raster gets the zoom 76, above 5. *)
Lemma fit_to_window_zoom_out_of_range :
  (is_loaded session_wide = true /\
   zoom (fit_to_window session_wide) == 475 # 100000 /\
   zoom (fit_to_window session_wide) < 1 # 100) /\
  (is_loaded session_tiny = true /\
   zoom (fit_to_window session_tiny) == 76 /\
   5 < zoom (fit_to_window session_tiny)).
Proof. vm_compute. repeat split; reflexivity. Qed.

(** C8, amended.  With a raster loaded, after a scroll zoom the zoom factor
    lies in [[0.01, 5.0]] and after zoom to 100% it is 1.0, for every
    raster size and canvas size; after fit to window it is
    [min(canvas_w / img_width, canvas_h / img_height) * 0.95], which is
    greater than zero and lies in [[0.01, 5.0]] only when that product
    does. *)
Theorem zoom_after_view_operations (self : PanoramaSlicer) (event : Event)
        (original : PIL.Image) :
  original_image self = Some original ->
  (0 < img_width self)%Z -> (0 < img_height self)%Z ->
  (1 # 100 <= zoom (on_scroll event self) /\
   zoom (on_scroll event self) <= 5) /\
  (zoom (zoom_100 self) == 1 /\
   1 # 100 <= zoom (zoom_100 self) /\ zoom (zoom_100 self) <= 5) /\
  (zoom (fit_to_window self) ==
     Qmin (inject_Z (fst (fit_canvas self)) / inject_Z (img_width self))
          (inject_Z (snd (fit_canvas self)) / inject_Z (img_height self))
     * (95 # 100) /\
   0 < zoom (fit_to_window self)).
Proof.
  intros Hl HW HH.
  destruct (view_handlers_zoom self event original Hl) as (Es & E1 & Ef).
  rewrite Es, E1, Ef. unfold Py.max, Py.min.
  split; [ | split ].
  - split.
    + apply Q.le_max_l.
    + apply Q.max_lub; [ lra | apply Q.le_min_l ].
  - repeat split; lra.
  - split; [ reflexivity | ].
    assert (0 < inject_Z (fst (fit_canvas self)) /\
            0 < inject_Z (snd (fit_canvas self))) as [Hcw Hch].
    { unfold fit_canvas.
      destruct (canvas_width self <? 10)%Z eqn:E1';
      destruct (canvas_height self <? 10)%Z eqn:E2';
        cbn [orb fst snd]; split; apply inject_Z_pos; lia. }
    pose proof (inject_Z_pos _ HW) as HWq.
    pose proof (inject_Z_pos _ HH) as HHq.
    assert (0 < inject_Z (fst (fit_canvas self)) / inject_Z (img_width self))
      as Hx by (apply Qlt_shift_div_l; [ assumption | lra ]).
    assert (0 < inject_Z (snd (fit_canvas self)) / inject_Z (img_height self))
      as Hy by (apply Qlt_shift_div_l; [ assumption | lra ]).
    set (zx := inject_Z (fst (fit_canvas self)) / inject_Z (img_width self)) in *.
    set (zy := inject_Z (snd (fit_canvas self)) / inject_Z (img_height self)) in *.
    destruct (Q.min_spec zx zy) as [[_ E]|[_ E]]; rewrite E; lra.
Qed.

(** ** The page material *)










(** ** Export of one page *)



(** ** Batch export *)






(** ** Loading *)

Lemma page_width_for_pos (h : Z) : (0 < h)%Z -> (0 < page_width_for h)%Z.
Proof.
  intro Hh. unfold page_width_for, Py.int, PAGE_HEIGHT_INCHES,
    PAGE_WIDTH_INCHES.
  pose proof (inject_Z_pos h Hh) as Hq.
  assert (1 <= inject_Z h) as H1.
  { change 1 with (inject_Z 1). rewrite <- Zle_Qle. lia. }
  set (x := inject_Z h / (17 # 2) * 11).
  assert (inject_Z 1 <= x) as Hx.
  { subst x. unfold Qdiv. change (/ (17 # 2)) with (2 # 17).
    change (inject_Z 1) with 1. lra. }
  assert (Qle_bool 0 x = true) as E.
  { apply Qle_bool_iff. change (inject_Z 1) with 1 in Hx. lra. }
  rewrite E.
  pose proof (Qfloor_resp_le _ _ Hx) as Hf. rewrite Qfloor_Z in Hf. lia.
Qed.

(** [fit_to_window] leaves the raster and the pagination alone. *)
Lemma fit_to_window_fields (self : PanoramaSlicer) :
  let st := fit_to_window self in
  original_image st = original_image self /\
  image_path st = image_path self /\
  img_width st = img_width self /\ img_height st = img_height self /\
  pixels_per_inch st = pixels_per_inch self /\
  page_width_px st = page_width_px self /\
  page_height_px st = page_height_px self /\
  right_to_left st = right_to_left self /\
  start_offset st = start_offset self /\ pages_x st = pages_x self /\
  output_dir st = output_dir self /\ files st = files self /\
  ui st = ui self.
Proof.
  destruct self. unfold fit_to_window, refresh_view, is_loaded.
  cbn [original_image]. destruct original_image0; cbn [negb].
  - cbn [canvas_width canvas_height].
    destruct ((canvas_width0 <? 10)%Z || (canvas_height0 <? 10)%Z);
      repeat split; reflexivity.
  - repeat split; reflexivity.
Qed.

(** The actions, one bind at a time. *)
Lemma bind_modify {B} (f : PanoramaSlicer -> PanoramaSlicer)
      (k : unit -> action B) (s : PanoramaSlicer) :
  bind (modify f) k s = k tt (f s).
Proof. reflexivity. Qed.

Lemma bind_gets {A B} (f : PanoramaSlicer -> A) (k : A -> action B)
      (s : PanoramaSlicer) :
  bind (gets f) k s = k (f s) s.
Proof. reflexivity. Qed.

Lemma bind_ret {A B} (a : A) (k : A -> action B) (s : PanoramaSlicer) :
  bind (ret a) k s = k a s.
Proof. reflexivity. Qed.

Lemma bind_raise {A B} (e : exn) (k : A -> action B) (s : PanoramaSlicer) :
  bind (raise e) k s = (Raised e, s).
Proof. reflexivity. Qed.

(** A load that decodes: the state it leaves. *)
Lemma load_image_decoded (env : Collaborators) (path : string)
      (self : PanoramaSlicer) (img : PIL.Image) :
  Image_open env path = inr img -> Image_load env img = None ->
  (0 < fst (PIL.size img))%Z -> (0 < snd (PIL.size img))%Z ->
  let st := snd (load_image env path self) in
  fst (load_image env path self) = Returned tt /\
  paginated st /\ raster_loaded st img /\
  start_offset st = 0 /\
  page_width_px st = page_width_for (snd (PIL.size img)) /\
  pages_x st =
    Py.ceil (inject_Z (fst (PIL.size img)) / inject_Z (page_width_px st)).
Proof.
  intros Hopen Hload Hw Hh.
  pose proof (page_width_for_pos _ Hh) as HP.
  destruct self as [oi ip iw ih ppi pw ph zm px py rtl so pgx pgy od cw ch fs us].
  cbv beta delta [load_image]. rewrite Hopen.
  rewrite bind_modify. cbv beta. assignments.
  cbv delta [try_except]. cbv beta.
  change (call (inr img)) with (@ret PIL.Image img).
  rewrite bind_ret. cbv beta. rewrite bind_modify. cbv beta. rewrite Hload.
  assignments.
  change (call (inr tt)) with (ret tt).
  rewrite bind_ret. cbv beta.
  do 6 (rewrite bind_modify; cbv beta; assignments).
  rewrite bind_gets. cbv beta. assignments.
  fold (page_width_for (snd (PIL.size img))).
  destruct (Z.eqb_spec (page_width_for (snd (PIL.size img))) 0) as [E|_];
    [ lia | ].
  rewrite bind_ret. cbv beta.
  do 4 (rewrite bind_modify; cbv beta; assignments).
  rewrite bind_modify. cbv beta. unfold modify. cbn [fst snd].
  match goal with
  | |- context [fit_to_window ?s] =>
    set (S := s);
    destruct (fit_to_window_fields S)
      as (Ei & _ & EW & EH & _ & EP & EPH & _ & Es & En & _)
  end.
  cbv zeta in Ei, EW, EH, EP, EPH, Es, En.
  assert (original_image S = Some img /\
          img_width S = fst (PIL.size img) /\
          img_height S = snd (PIL.size img) /\
          page_width_px S = page_width_for (snd (PIL.size img)) /\
          page_height_px S = snd (PIL.size img) /\
          start_offset S = 0 /\
          pages_x S =
            Py.ceil (inject_Z (fst (PIL.size img))
                     / inject_Z (page_width_for (snd (PIL.size img)))))
    as (Fi & FW & FH & FP & FPH & Fs & Fn).
  { subst S. destruct (negb (truthy od)); repeat split; reflexivity. }
  clearbody S.
  unfold notify.
  split; [ reflexivity | ].
  split; [ | split; [ | split; [ | split ] ] ].
  - constructor; cbn [img_width page_width_px start_offset pages_x];
      rewrite ?EW, ?EP, ?Es, ?En, ?FW, ?FP, ?Fs, ?Fn; try assumption.
    + lra.
    + apply Q.le_max_l.
    + unfold Py.ceil. apply Qceiling_comp.
      assert (inject_Z (fst (PIL.size img)) - 0
              == inject_Z (fst (PIL.size img))) as E by ring.
      now rewrite E.
  - constructor; cbn [original_image img_width img_height
                      page_height_px];
      rewrite ?Ei, ?EW, ?EH, ?EPH, ?Fi, ?FW, ?FH, ?FPH; try assumption;
      try reflexivity.
    now destruct (PIL.size img).
  - cbn [start_offset]. now rewrite Es, Fs.
  - cbn [page_width_px]. now rewrite EP, FP.
  - cbn [pages_x page_width_px]. now rewrite En, Fn, EP, FP.
Qed.

(** A load whose [Image.open] raises: the error is shown and nothing but
    the event log changes. *)
Lemma load_image_open_error (env : Collaborators) (path : string)
      (self : PanoramaSlicer) (e : exn) :
  Image_open env path = inl e ->
  load_image env path self =
  (Returned tt,
   notify StatusErrorLoading
     (notify (ShowError "Error" e)
        (notify (StatusLoading (os_path_basename env path)) self))).
Proof.
  intro Hopen. cbv beta delta [load_image]. rewrite Hopen.
  rewrite bind_modify. reflexivity.
Qed.

(** A load whose [load()] raises: the error is shown, and the raster has
    already been replaced (line 150 runs before line 151). *)
Lemma load_image_load_error (env : Collaborators) (path : string)
      (self : PanoramaSlicer) (img : PIL.Image) (e : exn) :
  Image_open env path = inr img -> Image_load env img = Some e ->
  load_image env path self =
  (Returned tt,
   notify StatusErrorLoading
     (notify (ShowError "Error" e)
        (set_original_image (Some img)
           (notify (StatusLoading (os_path_basename env path)) self)))).
Proof.
  intros Hopen Hload. cbv beta delta [load_image]. rewrite Hopen.
  rewrite bind_modify. cbv beta delta [try_except].
  change (call (inr img)) with (@ret PIL.Image img).
  rewrite bind_ret. cbv beta. rewrite bind_modify. cbv beta. rewrite Hload.
  reflexivity.
Qed.

(** C9, evaluated at a truncated file.  A 3000 x 773 raster is loaded;
    then a file is opened whose header reads as a 10 x 10 image and whose
    pixel data fails to decode.  [load_image] reports the error, the
    dimensions, the page spec and the pagination keep their values, but
    the raster in memory is no longer the previously loaded one: it is the
    undecoded 10 x 10 image, at odds with the recorded 3000 x 773. *)
Theorem load_image_truncated_replaces_raster :
  let before := session_3000 in
  let run := load_image collaborators_truncated "broken" before in
  let after := snd run in
  fst run = Returned tt /\
  hd_error (ui after) = Some StatusErrorLoading /\
  In (ShowError "Error" (OSError "image file is truncated")) (ui after) /\
  option_map PIL.size (original_image before) = Some (3000, 773)%Z /\
  option_map PIL.size (original_image after) = Some (10, 10)%Z /\
  original_image after <> original_image before /\
  (img_width after, img_height after) = (3000, 773)%Z /\
  (pixels_per_inch after == pixels_per_inch before /\
   page_width_px after = page_width_px before /\
   page_height_px after = page_height_px before) /\
  (start_offset after == start_offset before /\
   pages_x after = pages_x before /\
   right_to_left after = right_to_left before).
Proof.
  intros before run after. subst run after.
  rewrite (load_image_load_error collaborators_truncated "broken" before
             (coordinate_raster 10 10) (OSError "image file is truncated"))
    by reflexivity.
  cbn [fst snd].
  split; [ reflexivity | ].
  split; [ reflexivity | ].
  split; [ right; left; reflexivity | ].
  split; [ vm_compute; reflexivity | ].
  split; [ reflexivity | ].
  split.
  { intro H. apply (f_equal (option_map PIL.size)) in H.
    vm_compute in H. discriminate H. }
  split; [ vm_compute; reflexivity | ].
  split; repeat split; vm_compute; reflexivity.
Qed.

(** ** The statements at concrete inputs *)


Lemma page_lookup_of_midpoint_witness :
  paginated session_3000 /\
  (1 <= 2 <= pages_x session_3000)%Z /\
  page_num_at session_3000 (midpoint (page_box session_3000 2)) = 2%Z.
Proof.
  assert (paginated session_3000) as Hpg by (constructor; evaluated).
  assert (1 <= 2 <= pages_x session_3000)%Z as Hn by evaluated.
  split; [ exact Hpg | ]. split; [ exact Hn | ].
  exact (page_lookup_of_midpoint session_3000 2 Hpg Hn).
Defined.


Lemma visible_range_within_pages_witness :
  paginated session_3000 /\ view_clamped session_3000 /\
  (1 <= fst (visible_range session_3000) <= pages_x session_3000)%Z /\
  (snd (visible_range session_3000) <= pages_x session_3000)%Z.
Proof.
  assert (paginated session_3000) as Hpg by (constructor; evaluated).
  assert (view_clamped session_3000) as Hvc by (constructor; evaluated).
  split; [ exact Hpg | ]. split; [ exact Hvc | ].
  pose proof (visible_range_within_pages session_3000 Hpg Hvc) as H.
  cbv zeta in H. exact (conj (proj1 H) (proj1 (proj2 H))).
Defined.

Lemma reset_then_set_start_at_zero_witness :
  let st0 := reset_start session_2500_ltr in
  let st := on_right_click (right_click_at 0 0) st0 in
  original_image session_2500_ltr = Some (coordinate_raster 2500 773) /\
  pan_x st0 + inject_Z 0 / zoom st0 == 0 /\
  (right_to_left session_2500_ltr = false ->
   start_offset st == 0 /\
   pages_x st =
     Py.ceil (inject_Z (img_width session_2500_ltr)
              / inject_Z (page_width_px session_2500_ltr))).
Proof.
  intros st0 st.
  assert (original_image session_2500_ltr = Some (coordinate_raster 2500 773))
    as Hl by reflexivity.
  assert (0 < img_width session_2500_ltr)%Z as HW by evaluated.
  assert (0 < page_width_px session_2500_ltr)%Z as HP by evaluated.
  assert (pan_x st0 + inject_Z 0 / zoom st0 == 0) as Hx by evaluated.
  split; [ exact Hl | ]. split; [ exact Hx | ].
  exact (proj1 (reset_then_set_start_at_zero session_2500_ltr
                  (right_click_at 0 0) _ Hl HW HP Hx)).
Defined.

Lemma zoom_after_view_operations_witness :
  let scroll_up := {| num := 4; delta := 120; ev_x := 10; ev_y := 10 |} in
  original_image session_wide = Some (coordinate_raster 200000 773) /\
  (1 # 100 <= zoom (on_scroll scroll_up session_wide) /\
   zoom (on_scroll scroll_up session_wide) <= 5).
Proof.
  intro scroll_up.
  assert (original_image session_wide = Some (coordinate_raster 200000 773))
    as Hl by reflexivity.
  assert (0 < img_width session_wide)%Z as HW by evaluated.
  assert (0 < img_height session_wide)%Z as HH by evaluated.
  split; [ exact Hl | ].
  exact (proj1 (zoom_after_view_operations session_wide scroll_up _ Hl HW HH)).
Defined.





(** * Further properties *)

(** ** Clicks, grid lines and labels *)




(** X4.  Direction symmetry.  When the raster width is [m] whole pages and
    the pages start at the natural edge, page [k] right to left is the
    same rectangle as page [m - k + 1] left to right. *)
Theorem direction_symmetry (self : PanoramaSlicer) (m k : Z) :
  (0 < page_width_px self)%Z ->
  img_width self = (m * page_width_px self)%Z ->
  start_offset self == 0 ->
  (1 <= k <= m)%Z ->
  let rtl := set_right_to_left true self in
  let ltr := set_right_to_left false self in
  fst (page_box rtl k) == fst (page_box ltr (m - k + 1)) /\
  snd (page_box rtl k) == snd (page_box ltr (m - k + 1)).
Proof.
  intros HP HW Hs Hk rtl ltr.
  pose proof (page_box_spec rtl k) as Hr.
  pose proof (page_box_spec ltr (m - k + 1)) as Hl.
  subst rtl ltr. cbv zeta in Hr, Hl.
  change (right_to_left (set_right_to_left true self)) with true in Hr.
  change (right_to_left (set_right_to_left false self)) with false in Hl.
  change (img_width (set_right_to_left true self)) with (img_width self) in *.
  change (img_width (set_right_to_left false self)) with (img_width self) in *.
  change (page_width_px (set_right_to_left true self))
    with (page_width_px self) in *.
  change (page_width_px (set_right_to_left false self))
    with (page_width_px self) in *.
  change (start_offset (set_right_to_left true self))
    with (start_offset self) in *.
  change (start_offset (set_right_to_left false self))
    with (start_offset self) in *.
  rewrite HW in Hr, Hl.
  set (P := page_width_px self) in *.
  assert (inject_Z (m * P) == inject_Z (k * P) + inject_Z ((m - k) * P)) as E1.
  { rewrite <- inject_Z_plus. apply inject_Z_injective. ring. }
  assert (inject_Z ((k - 1) * P) == inject_Z (k * P) - inject_Z P) as E2
    by apply inject_Z_mul_pred.
  replace (m - k + 1 - 1)%Z with (m - k)%Z in Hl by lia.
  assert (0 <= inject_Z ((m - k) * P)) as H0.
  { change 0 with (inject_Z 0). rewrite <- Zle_Qle. nia. }
  assert (0 < inject_Z P) as HPq by (apply inject_Z_pos; exact HP).
  assert (inject_Z P <= inject_Z (k * P)) as H1.
  { rewrite <- Zle_Qle. nia. }
  set (a := fst (page_box (set_right_to_left true self) k)) in *.
  set (b := snd (page_box (set_right_to_left true self) k)) in *.
  set (c := fst (page_box (set_right_to_left false self) (m - k + 1))) in *.
  set (d := snd (page_box (set_right_to_left false self) (m - k + 1))) in *.
  set (W := inject_Z (m * P)) in *.
  set (kP := inject_Z (k * P)) in *.
  set (k1P := inject_Z ((k - 1) * P)) in *.
  set (jP := inject_Z ((m - k) * P)) in *.
  set (Pq := inject_Z P) in *.
  clearbody a b c d W kP k1P jP Pq.
  destruct Hr as [Hb [[Hc1 Ha]|[Hc1 Ha]]];
    destruct Hl as [Hc [[Hc2 Hd]|[Hc2 Hd]]]; split; lra.
Qed.

(** ** The view *)

Lemma refresh_view_pan (self : PanoramaSlicer) (original : PIL.Image) :
  original_image self = Some original ->
  let st := refresh_view self in
  let max_pan_x :=
    Qmax 0 (inject_Z (img_width self)
            - inject_Z (canvas_width self) / zoom self) in
  let max_pan_y :=
    Qmax 0 (inject_Z (img_height self)
            - inject_Z (canvas_height self) / zoom self) in
  pan_x st = Qmax 0 (Qmin (pan_x self) max_pan_x) /\
  pan_y st = Qmax 0 (Qmin (pan_y self) max_pan_y) /\
  zoom st = zoom self /\ img_width st = img_width self /\
  img_height st = img_height self /\
  canvas_width st = canvas_width self /\
  canvas_height st = canvas_height self /\
  original_image st = Some original.
Proof.
  intro Hl. destruct self. cbn in Hl. subst.
  unfold refresh_view, is_loaded. cbn. repeat split; reflexivity.
Qed.

Lemma clamp_in_range (p m : Q) :
  0 <= m -> 0 <= Qmax 0 (Qmin p m) /\ Qmax 0 (Qmin p m) <= m.
Proof.
  intro Hm. split.
  - apply Q.le_max_l.
  - apply Q.max_lub; [ exact Hm | apply Q.le_min_r ].
Qed.

Lemma clamp_fixed (p m : Q) : 0 <= p -> p <= m -> Qmax 0 (Qmin p m) == p.
Proof.
  intros H0 Hm.
  destruct (Q.min_spec p m) as [[H1 E1]|[H1 E1]];
  set (c := Qmin p m) in *;
  destruct (Q.max_spec 0 c) as [[H2 E2]|[H2 E2]];
  set (r := Qmax 0 c) in *; clearbody r c; lra.
Qed.

Lemma refresh_view_pan_clamped (self : PanoramaSlicer)
      (original : PIL.Image) :
  original_image self = Some original -> pan_clamped (refresh_view self).
Proof.
  intro Hl.
  destruct (refresh_view_pan self original Hl)
    as (Ex & Ey & Ez & EW & EH & Ecw & Ech & _).
  unfold pan_clamped. cbv zeta in *.
  rewrite Ex, Ey, Ez, EW, EH, Ecw, Ech.
  destruct (clamp_in_range (pan_x self)
              (Qmax 0 (inject_Z (img_width self)
                       - inject_Z (canvas_width self) / zoom self)))
    as [H1 H2]; [ apply Q.le_max_l | ].
  destruct (clamp_in_range (pan_y self)
              (Qmax 0 (inject_Z (img_height self)
                       - inject_Z (canvas_height self) / zoom self)))
    as [H3 H4]; [ apply Q.le_max_l | ].
  repeat split; assumption.
Qed.

(** X5.  With a raster loaded, every handler that moves the view
    ([refresh_view], [pan_by], [on_scroll], [zoom_100], [fit_to_window] and
    [on_mouse_drag]) leaves the pan offset clamped on both axes:
    [0 <= pan <= max(0, image size - canvas size / zoom)]. *)
Theorem view_handlers_clamp_pan
        (self : PanoramaSlicer) (original : PIL.Image) (event : Event)
        (dx dy : Z) (drag : Drag) :
  original_image self = Some original ->
  pan_clamped (refresh_view self) /\
  pan_clamped (pan_by dx dy self) /\
  pan_clamped (on_scroll event self) /\
  pan_clamped (zoom_100 self) /\
  pan_clamped (fit_to_window self) /\
  pan_clamped (fst (on_mouse_drag event (self, drag))).
Proof.
  intro Hl.
  assert (forall s, original_image s = Some original ->
                    pan_clamped (refresh_view s)) as Hclamp
    by (intros s Hs; exact (refresh_view_pan_clamped s original Hs)).
  assert (is_loaded self = true) as Hil by (unfold is_loaded; now rewrite Hl).
  split; [ apply Hclamp; exact Hl | ].
  split; [ unfold pan_by; rewrite Hil; apply Hclamp; exact Hl | ].
  split; [ unfold on_scroll; rewrite Hil; apply Hclamp; exact Hl | ].
  split; [ unfold zoom_100; rewrite Hil; apply Hclamp; exact Hl | ].
  split.
  - unfold fit_to_window. rewrite Hil. cbn [negb].
    destruct ((canvas_width self <? 10)%Z || (canvas_height self <? 10)%Z);
      apply Hclamp; exact Hl.
  - unfold on_mouse_drag. cbn [fst]. apply Hclamp. exact Hl.
Qed.

(** X6.  Clamping is idempotent: a second [refresh_view] changes neither
    the pan offset nor the zoom. *)
Theorem refresh_view_idempotent (self : PanoramaSlicer) :
  pan_x (refresh_view (refresh_view self)) == pan_x (refresh_view self) /\
  pan_y (refresh_view (refresh_view self)) == pan_y (refresh_view self) /\
  zoom (refresh_view (refresh_view self)) = zoom (refresh_view self).
Proof.
  destruct (original_image self) as [original|] eqn:Hl.
  - destruct (refresh_view_pan self original Hl)
      as (Ex & Ey & Ez & EW & EH & Ecw & Ech & Hl').
    destruct (refresh_view_pan (refresh_view self) original Hl')
      as (Ex' & Ey' & Ez' & _).
    cbv zeta in *.
    rewrite Ex', Ey', Ez', EW, EH, Ecw, Ech, Ez.
    destruct (clamp_in_range (pan_x self)
                (Qmax 0 (inject_Z (img_width self)
                         - inject_Z (canvas_width self) / zoom self)))
      as [H1 H2]; [ apply Q.le_max_l | ].
    destruct (clamp_in_range (pan_y self)
                (Qmax 0 (inject_Z (img_height self)
                         - inject_Z (canvas_height self) / zoom self)))
      as [H3 H4]; [ apply Q.le_max_l | ].
    rewrite <- Ex in H1, H2. rewrite <- Ey in H3, H4.
    split; [ apply clamp_fixed; assumption | ].
    split; [ apply clamp_fixed; assumption | reflexivity ].
  - assert (refresh_view self = self) as E.
    { unfold refresh_view, is_loaded. now rewrite Hl. }
    rewrite !E. repeat split; reflexivity.
Qed.



Lemma int_of_nonneg (x : Q) : 0 <= x -> Py.int x = Qfloor x.
Proof.
  intro H. unfold Py.int.
  destruct (Qle_bool 0 x) eqn:E; [ reflexivity | ].
  apply Qle_bool_iff in H. congruence.
Qed.

Lemma int_between (x y : Q) (hi : Z) :
  0 <= x -> x <= y -> y <= inject_Z hi ->
  (0 <= Py.int x <= Py.int y)%Z /\ (Py.int y <= hi)%Z.
Proof.
  intros H0 Hxy Hhi.
  rewrite (int_of_nonneg x H0), (int_of_nonneg y) by lra.
  pose proof (Qfloor_resp_le _ _ H0) as F0. change (Qfloor 0) with 0%Z in F0.
  pose proof (Qfloor_resp_le _ _ Hxy) as F1.
  pose proof (Qfloor_resp_le _ _ Hhi) as F2. rewrite Qfloor_Z in F2.
  lia.
Qed.

(** X8.  The region [refresh_view] crops for display lies inside the
    raster: with the pan offset clamped, a positive zoom and a canvas of
    non-negative size, [0 <= left <= right <= img_width] and
    [0 <= top <= bottom <= img_height]. *)
Theorem view_crop_inside_raster (self : PanoramaSlicer) :
  pan_clamped self ->
  0 < zoom self ->
  (0 <= canvas_width self)%Z -> (0 <= canvas_height self)%Z ->
  (0 <= img_width self)%Z -> (0 <= img_height self)%Z ->
  let '(left_, top, right_, bottom) := view_crop self in
  (0 <= left_ <= right_)%Z /\ (right_ <= img_width self)%Z /\
  (0 <= top <= bottom)%Z /\ (bottom <= img_height self)%Z.
Proof.
  intros (Hx0 & Hx1 & Hy0 & Hy1) Hz Hcw Hch HW HH.
  cbv zeta in Hx1, Hy1. unfold view_crop, Py.min.
  assert (forall c : Z, (0 <= c)%Z -> 0 <= inject_Z c / zoom self) as Hdiv.
  { intros c Hc. apply Qle_shift_div_l; [ exact Hz | ].
    rewrite Qmult_0_l. change 0 with (inject_Z 0). now rewrite <- Zle_Qle. }
  pose proof (Hdiv _ Hcw) as Hvw. pose proof (Hdiv _ Hch) as Hvh.
  assert (0 <= inject_Z (img_width self)) as HWq
    by (change 0 with (inject_Z 0); now rewrite <- Zle_Qle).
  assert (0 <= inject_Z (img_height self)) as HHq
    by (change 0 with (inject_Z 0); now rewrite <- Zle_Qle).
  set (vw := inject_Z (canvas_width self) / zoom self) in *.
  set (vh := inject_Z (canvas_height self) / zoom self) in *.
  assert (pan_x self <= Qmin (pan_x self + vw) (inject_Z (img_width self)) /\
          Qmin (pan_x self + vw) (inject_Z (img_width self))
          <= inject_Z (img_width self)) as [Hxa Hxb].
  { split; [ | apply Q.le_min_r ].
    apply Q.min_glb; [ lra | ].
    destruct (Q.max_spec 0 (inject_Z (img_width self) - vw)) as [[_ E]|[_ E]];
      rewrite E in Hx1; lra. }
  assert (pan_y self <= Qmin (pan_y self + vh) (inject_Z (img_height self)) /\
          Qmin (pan_y self + vh) (inject_Z (img_height self))
          <= inject_Z (img_height self)) as [Hya Hyb].
  { split; [ | apply Q.le_min_r ].
    apply Q.min_glb; [ lra | ].
    destruct (Q.max_spec 0 (inject_Z (img_height self) - vh)) as [[_ E]|[_ E]];
      rewrite E in Hy1; lra. }
  destruct (int_between _ _ _ Hx0 Hxa Hxb) as [H1 H2].
  destruct (int_between _ _ _ Hy0 Hya Hyb) as [H3 H4].
  repeat split; lia.
Qed.

(** ** Loading and the start of the pages *)

Lemma page_width_for_formula (h : Z) :
  (0 <= h)%Z -> page_width_for h = (22 * h / 17)%Z.
Proof.
  intro Hh. unfold page_width_for, PAGE_HEIGHT_INCHES, PAGE_WIDTH_INCHES.
  assert (0 <= inject_Z h) as Hq
    by (change 0 with (inject_Z 0); now rewrite <- Zle_Qle).
  assert (inject_Z h / (17 # 2) * 11 == (22 * h # 17)) as E.
  { unfold Qdiv. change (/ (17 # 2)) with (2 # 17).
    unfold Qeq, Qmult, inject_Z. cbn [Qnum Qden].
    change (Z.pos (1 * 17 * 1)) with 17%Z. ring. }
  rewrite int_of_nonneg.
  - rewrite E. reflexivity.
  - unfold Qdiv. change (/ (17 # 2)) with (2 # 17). lra.
Qed.

(** X9.  A load that decodes sets up the whole session: the raster and its
    size are recorded, the page is as high as the raster and
    [floor(22 * height / 17)] wide (8.5 to 11 inches), the pages start at
    the natural edge, there are [ceil(width / page width)] of them, at
    least one; the direction and the files written so far are kept; an
    output directory chosen before is kept, and without one the directory
    of the image becomes the output directory. *)
Theorem load_image_sets_up_session
        (env : Collaborators) (path : string) (self : PanoramaSlicer)
        (img : PIL.Image) :
  Image_open env path = inr img -> Image_load env img = None ->
  (0 < fst (PIL.size img))%Z -> (0 < snd (PIL.size img))%Z ->
  let st := snd (load_image env path self) in
  fst (load_image env path self) = Returned tt /\
  paginated st /\ raster_loaded st img /\
  image_path st = Some path /\
  page_width_px st = (22 * snd (PIL.size img) / 17)%Z /\
  page_height_px st = snd (PIL.size img) /\
  start_offset st = 0 /\
  pages_x st =
    Py.ceil (inject_Z (fst (PIL.size img)) / inject_Z (page_width_px st)) /\
  (1 <= pages_x st)%Z /\
  right_to_left st = right_to_left self /\
  files st = files self /\
  output_dir st =
    (if truthy (output_dir self) then output_dir self
     else Some (os_path_dirname env path)).
Proof.
  intros Hopen Hload Hw Hh.
  pose proof (page_width_for_pos _ Hh) as HP.
  pose proof (page_width_for_formula (snd (PIL.size img)) ltac:(lia)) as HPf.
  destruct self as [oi ip iw ih ppi pw ph zm px py rtl so pgx pgy od cw ch fs us].
  cbv beta delta [load_image]. rewrite Hopen.
  rewrite bind_modify. cbv beta. assignments.
  cbv delta [try_except]. cbv beta.
  change (call (inr img)) with (@ret PIL.Image img).
  rewrite bind_ret. cbv beta. rewrite bind_modify. cbv beta. rewrite Hload.
  assignments.
  change (call (inr tt)) with (ret tt).
  rewrite bind_ret. cbv beta.
  do 6 (rewrite bind_modify; cbv beta; assignments).
  rewrite bind_gets. cbv beta. assignments.
  fold (page_width_for (snd (PIL.size img))).
  destruct (Z.eqb_spec (page_width_for (snd (PIL.size img))) 0) as [E|_];
    [ lia | ].
  rewrite bind_ret. cbv beta.
  do 4 (rewrite bind_modify; cbv beta; assignments).
  rewrite bind_modify. cbv beta. unfold modify. cbn [fst snd].
  match goal with
  | |- context [fit_to_window ?s] =>
    set (S := s);
    destruct (fit_to_window_fields S)
      as (Ei & Eip & EW & EH & _ & EP & EPH & Ertl & Es & En & Eod & Efs & _)
  end.
  cbv zeta in Ei, Eip, EW, EH, EP, EPH, Ertl, Es, En, Eod, Efs.
  assert (original_image S = Some img /\
          image_path S = Some path /\
          img_width S = fst (PIL.size img) /\
          img_height S = snd (PIL.size img) /\
          page_width_px S = page_width_for (snd (PIL.size img)) /\
          page_height_px S = snd (PIL.size img) /\
          start_offset S = 0 /\
          pages_x S =
            Py.ceil (inject_Z (fst (PIL.size img))
                     / inject_Z (page_width_for (snd (PIL.size img)))) /\
          right_to_left S = rtl /\ files S = fs /\
          output_dir S =
            (if truthy od then od else Some (os_path_dirname env path)))
    as (Fi & Fip & FW & FH & FP & FPH & Fs & Fn & Frtl & Ffs & Fod).
  { subst S. destruct (truthy od); cbn [negb]; repeat split; reflexivity. }
  clearbody S.
  unfold notify.
  cbn [original_image image_path img_width img_height page_width_px
       page_height_px start_offset pages_x right_to_left files output_dir].
  rewrite Ei, Eip, EW, EH, EP, EPH, Ertl, Es, En, Eod, Efs.
  rewrite Fi, Fip, FW, FH, FP, FPH, Frtl, Fs, Fn, Fod, Ffs.
  assert (paginated
            (mkSlicer (Some img) (Some path) (fst (PIL.size img))
               (snd (PIL.size img)) (pixels_per_inch (fit_to_window S))
               (page_width_for (snd (PIL.size img))) (snd (PIL.size img))
               (zoom (fit_to_window S)) (pan_x (fit_to_window S))
               (pan_y (fit_to_window S)) rtl 0
               (Py.ceil (inject_Z (fst (PIL.size img))
                         / inject_Z (page_width_for (snd (PIL.size img)))))
               (pages_y (fit_to_window S))
               (if truthy od then od else Some (os_path_dirname env path))
               (canvas_width (fit_to_window S))
               (canvas_height (fit_to_window S)) fs
               (StatusLoaded :: ui (fit_to_window S)))) as Hpg.
  { constructor; cbn [img_width page_width_px start_offset pages_x];
      try assumption.
    - lra.
    - apply Q.le_max_l.
    - unfold Py.ceil. apply Qceiling_comp.
      assert (inject_Z (fst (PIL.size img)) - 0
              == inject_Z (fst (PIL.size img))) as E by ring.
      now rewrite E. }
  split; [ reflexivity | ].
  split; [ exact Hpg | ].
  split.
  { constructor; cbn [original_image img_width img_height page_height_px];
      try reflexivity; try assumption.
    now destruct (PIL.size img). }
  split; [ reflexivity | ].
  split; [ exact HPf | ].
  split; [ reflexivity | ].
  split; [ reflexivity | ].
  split; [ reflexivity | ].
  split; [ exact (pages_x_pos _ Hpg) | ].
  split; [ reflexivity | ].
  split; reflexivity.
Qed.

(** X10.  A load whose [Image.open] raises changes nothing but the
    messages: the error is shown in a message box and in the status line,
    and the raster, its path and size, the page spec, the pagination, the
    view, the output directory and the files are what they were. *)
Theorem load_image_open_failure_keeps_state
        (env : Collaborators) (path : string) (self : PanoramaSlicer)
        (e : exn) :
  Image_open env path = inl e ->
  let st := snd (load_image env path self) in
  fst (load_image env path self) = Returned tt /\
  ui st = StatusErrorLoading :: ShowError "Error" e
          :: StatusLoading (os_path_basename env path) :: ui self /\
  original_image st = original_image self /\
  image_path st = image_path self /\
  (img_width st, img_height st) = (img_width self, img_height self) /\
  (pixels_per_inch st, page_width_px st, page_height_px st)
  = (pixels_per_inch self, page_width_px self, page_height_px self) /\
  (right_to_left st, start_offset st, pages_x st)
  = (right_to_left self, start_offset self, pages_x self) /\
  (zoom st, pan_x st, pan_y st) = (zoom self, pan_x self, pan_y self) /\
  output_dir st = output_dir self /\
  files st = files self.
Proof.
  intros Hopen st. subst st.
  cbv beta delta [load_image]. rewrite Hopen.
  rewrite bind_modify. cbv beta delta [try_except].
  change (call (inl e)) with (@raise PIL.Image e).
  rewrite bind_raise. cbv beta iota.
  rewrite !bind_modify. unfold modify. cbn [fst snd].
  destruct self. repeat split; reflexivity.
Qed.



(** ** Export of all pages *)


Lemma with_output_paginated fs us (s : PanoramaSlicer) :
  paginated s -> paginated (with_output fs us s).
Proof. intros [H1 H2 H3 H4 H5]. constructor; assumption. Qed.

Lemma with_output_raster_loaded fs us (s : PanoramaSlicer) original :
  raster_loaded s original -> raster_loaded (with_output fs us s) original.
Proof. intros [H1 H2 H3 H4]. constructor; assumption. Qed.






(** ** Export of the visible pages *)





(** X15.  Without a raster or without an output directory no export
    writes anything: [export_all_pages], [export_visible_pages] and
    [export_clicked_page] return normally, show the warning and leave the
    files as they are; and a batch export whose confirmation is declined
    leaves the whole state as it is. *)
Theorem export_without_setup_writes_nothing
        (env : Collaborators) (self : PanoramaSlicer) (confirm : bool)
        (canvas_x canvas_y : Z) :
  (is_loaded self = false \/ truthy (output_dir self) = false ->
   let warned :=
     (Returned tt,
      notify (ShowWarning
                "Please load an image and set output directory first") self) in
   export_all_pages env confirm self = warned /\
   export_visible_pages env confirm self = warned /\
   export_clicked_page env canvas_x canvas_y self = warned /\
   files (snd warned) = files self) /\
  (is_loaded self = true -> truthy (output_dir self) = true ->
   export_all_pages env false self = (Returned tt, self) /\
   export_visible_pages env false self = (Returned tt, self)).
Proof.
  split.
  - intros H warned.
    assert (negb (is_loaded self) || negb (truthy (output_dir self)) = true)
      as E.
    { destruct H as [H|H]; rewrite H; cbn; [ reflexivity | ].
      now rewrite orb_true_r. }
    unfold export_all_pages, export_visible_pages, export_clicked_page.
    rewrite E. subst warned. unfold warn_load_first, modify.
    repeat split; reflexivity.
  - intros Hl Hd.
    unfold export_all_pages, export_visible_pages. rewrite Hl, Hd.
    cbn [negb orb]. split; [ reflexivity | ].
    destruct (visible_range self). reflexivity.
Qed.

(** ** File names *)

Lemma string_length_app (a b : string) :
  String.length (a ++ b) = (String.length a + String.length b)%nat.
Proof. induction a as [|c a IH]; cbn; [ reflexivity | now rewrite IH ]. Qed.

Lemma string_app_inj_l (s a b : string) :
  (s ++ a)%string = (s ++ b)%string -> a = b.
Proof.
  induction s as [|c s IH]; cbn; intro H; [ exact H | ].
  injection H as H. exact (IH H).
Qed.

Lemma string_app_inj_r (s a b : string) :
  (a ++ s)%string = (b ++ s)%string -> a = b.
Proof.
  revert b. induction a as [|c a IH]; intros [|c' b] H.
  - reflexivity.
  - apply (f_equal String.length) in H.
    rewrite !string_length_app in H. cbn in H. lia.
  - apply (f_equal String.length) in H.
    rewrite !string_length_app in H. cbn in H. lia.
  - cbn in H. injection H as Hc H. subst c'. f_equal. exact (IH b H).
Qed.

Lemma read_digits_zeros (k : nat) (s : string) :
  read_digits (Py.zeros k ++ s) = read_digits s.
Proof.
  induction k as [|k IH]; [ reflexivity | ].
  cbn [Py.zeros append]. unfold read_digits in *.
  cbn [NilEmpty.uint_of_string].
  destruct (NilEmpty.uint_of_string (Py.zeros k ++ s)) as [d|];
    [ | exact IH ].
  cbn [uint_of_char option_map] in *. rewrite <- IH. reflexivity.
Qed.

Lemma read_digits_digits (n : Z) :
  (0 <= n)%Z -> read_digits (Py.digits n) = Some n.
Proof.
  intro Hn. unfold read_digits, Py.digits.
  rewrite Z.abs_eq by exact Hn.
  pose proof (DecimalN.Unsigned.of_to (Z.to_N n)) as Hof.
  destruct (N.to_uint (Z.to_N n)) as [|d|d|d|d|d|d|d|d|d|d] eqn:E;
    unfold NilZero.string_of_uint;
    try (rewrite NilEmpty.usu; cbn [option_map]; rewrite Hof;
         rewrite Z2N.id by exact Hn; reflexivity).
  cbn. cbn in Hof. f_equal. lia.
Qed.

(** X16.  The page number can be read back from a file name.  For a page
    number that is not negative, the three-digit field has at least three
    characters and reads back as the page number, so the files of
    different pages of one image have different names and a batch export
    never overwrites one of its own files. *)
Theorem page_filename_round_trip (env : Collaborators) (path : string)
        (n : Z) :
  (0 <= n)%Z ->
  read_digits (Py.format_03d n) = Some n /\
  (3 <= String.length (Py.format_03d n))%nat /\
  (forall m, (0 <= m)%Z ->
     page_filename env path n = page_filename env path m -> n = m).
Proof.
  intro Hn.
  assert (forall k, (0 <= k)%Z -> read_digits (Py.format_03d k) = Some k)
    as Hread.
  { intros k Hk. unfold Py.format_03d.
    destruct (Z.ltb_spec k 0) as [Hneg|_]; [ lia | ].
    rewrite read_digits_zeros. now apply read_digits_digits. }
  split; [ exact (Hread n Hn) | ]. split.
  - unfold Py.format_03d.
    destruct (Z.ltb_spec n 0) as [Hneg|_]; [ lia | ].
    rewrite string_length_app.
    assert (forall k, String.length (Py.zeros k) = k) as Hz
      by (induction k as [|k IH]; cbn; congruence).
    rewrite Hz. lia.
  - intros m Hm E. unfold page_filename in E.
    apply string_app_inj_l in E.
    apply (string_app_inj_l "_page") in E.
    apply string_app_inj_r in E.
    pose proof (Hread n Hn) as H1. pose proof (Hread m Hm) as H2.
    rewrite E in H1. congruence.
Qed.

(** ** Printing *)


(** X18.  The pages the print dialog hands to [print_pages].  Whatever
    the choice, a list that is handed over is not empty and holds only
    page numbers in [[1, pages_x]].  A range choice [a] to [b] hands over
    exactly the pages [n] with [max(1, a) <= n <= min(pages_x, b)], in
    ascending order, reports that there are no pages to print when there
    is none, and is refused as invalid when an entry is not an integer. *)
Theorem do_print_pages_in_range
        (self : PanoramaSlicer) (choice : page_choice) (pages : list Z) :
  do_print choice self = PrintPages pages ->
  pages <> [] /\
  (forall n, In n pages -> (1 <= n <= pages_x self)%Z) /\
  (forall a b,
     do_print (ChoiceRange (Some a) (Some b)) self =
     (if (Z.min (pages_x self) b <? Z.max 1 a)%Z then NoPagesToPrint
      else PrintPages (range (Z.max 1 a) (Z.min (pages_x self) b + 1))) /\
     (forall n, In n (range (Z.max 1 a) (Z.min (pages_x self) b + 1))
                <-> (Z.max 1 a <= n <= Z.min (pages_x self) b)%Z)) /\
  (forall e, do_print (ChoiceRange None e) self = InvalidPageRange /\
             do_print (ChoiceRange e None) self = InvalidPageRange).
Proof.
  intro H.
  assert (forall l, (match l with [] => NoPagesToPrint | _ => PrintPages l end)
                    = PrintPages pages -> l = pages /\ pages <> []) as Hchk.
  { intros [|x l] E; [ discriminate E | ]. injection E as <-.
    split; [ reflexivity | discriminate ]. }
  split; [ | split; [ | split ] ].
  - destruct choice as [| |[a|] [b|]]; cbn in H; try discriminate H;
      apply Hchk in H; apply H.
  - intros n Hn.
    destruct choice as [| |[a|] [b|]]; cbn in H; try discriminate H;
      apply Hchk in H; destruct H as [<- _].
    + apply In_range in Hn. lia.
    + unfold get_visible_page_numbers in Hn.
      assert (1 <= fst (visible_range self) /\
              snd (visible_range self) <= pages_x self)%Z as [H1 H2].
      { unfold visible_range.
        destruct (right_to_left self); cbn [fst snd]; lia. }
      destruct (visible_range self) as [sp ep]. cbn [fst snd] in *.
      apply In_range in Hn. lia.
    + apply In_range in Hn. lia.
  - intros a b. split.
    + cbn [do_print].
      destruct (Z.ltb_spec (Z.min (pages_x self) b) (Z.max 1 a)) as [Hlt|Hge].
      * unfold range.
        replace (Z.to_nat (Z.min (pages_x self) b + 1 - Z.max 1 a))
          with 0%nat by lia.
        reflexivity.
      * unfold range.
        destruct (Z.to_nat (Z.min (pages_x self) b + 1 - Z.max 1 a))
          as [|k] eqn:E; [ lia | ].
        reflexivity.
    + intro n. rewrite In_range. lia.
  - intros [e|]; split; reflexivity.
Qed.



(** ** Mouse clicks and drags *)

Lemma on_mouse_drag_fields (self : PanoramaSlicer) (original : PIL.Image)
      (drag : Drag) (move : Event) :
  original_image self = Some original ->
  let st := fst (on_mouse_drag move (self, drag)) in
  let dx := (ev_x move - drag_start_x drag)%Z in
  let dy := (ev_y move - drag_start_y drag)%Z in
  original_image st = Some original /\
  pan_x st =
    Qmax 0 (Qmin (drag_pan_x drag - inject_Z dx / zoom self)
                 (Qmax 0 (inject_Z (img_width self)
                          - inject_Z (canvas_width self) / zoom self))) /\
  is_dragging (snd (on_mouse_drag move (self, drag))) =
    (5 <? Z.abs dx)%Z || (5 <? Z.abs dy)%Z || is_dragging drag.
Proof.
  intro Hl. destruct self. cbn in Hl. subst.
  unfold on_mouse_drag, refresh_view, is_loaded. cbn.
  destruct ((5 <? Z.abs (ev_x move - drag_start_x drag))%Z
            || (5 <? Z.abs (ev_y move - drag_start_y drag))%Z);
    repeat split; reflexivity.
Qed.

(** X21.  A press followed by a move of more than 5 canvas pixels on
    either axis is a drag: it stays a drag through later moves, however
    small, and the release exports nothing.  A move of at most 5 pixels
    on both axes is not a drag: it still pans the view, and the release
    then exports the page under the release position in the moved view.
    With a raster loaded, a move pans the view to the clamped offset
    [pan at press - movement / zoom]. *)
Theorem click_versus_drag
        (env : Collaborators) (self : PanoramaSlicer) (original : PIL.Image)
        (press move later release : Event) :
  original_image self = Some original ->
  let drag0 := on_mouse_down press self in
  let st1 := fst (on_mouse_drag move (self, drag0)) in
  let drag1 := snd (on_mouse_drag move (self, drag0)) in
  let drag2 := snd (on_mouse_drag later (st1, drag1)) in
  let dx := (ev_x move - ev_x press)%Z in
  let dy := (ev_y move - ev_y press)%Z in
  (is_dragging drag1 = true <-> (5 < Z.abs dx \/ 5 < Z.abs dy)%Z) /\
  (is_dragging drag1 = true ->
   is_dragging drag2 = true /\
   on_mouse_up env release drag1 st1 = (Returned tt, st1)) /\
  (is_dragging drag1 = false ->
   on_mouse_up env release drag1 st1
   = export_clicked_page env (ev_x release) (ev_y release) st1) /\
  on_mouse_up env release drag0 self
  = export_clicked_page env (ev_x release) (ev_y release) self /\
  pan_x st1 =
    Qmax 0 (Qmin (pan_x self - inject_Z dx / zoom self)
                 (Qmax 0 (inject_Z (img_width self)
                          - inject_Z (canvas_width self) / zoom self))).
Proof.
  intros Hl drag0 st1 drag1 drag2 dx dy.
  assert (is_loaded self = true) as Hil by (unfold is_loaded; now rewrite Hl).
  destruct (on_mouse_drag_fields self original drag0 move Hl)
    as (Hl1 & Epan & Ed).
  fold st1 in Hl1, Epan. fold drag1 in Ed.
  change (drag_start_x drag0) with (ev_x press) in Ed, Epan.
  change (drag_start_y drag0) with (ev_y press) in Ed.
  change (drag_pan_x drag0) with (pan_x self) in Epan.
  change (is_dragging drag0) with false in Ed.
  fold dx in Ed, Epan. fold dy in Ed. rewrite orb_false_r in Ed.
  destruct (on_mouse_drag_fields st1 original drag1 later Hl1)
    as (_ & _ & Ed2).
  fold drag2 in Ed2.
  assert (is_loaded st1 = true) as Hil1
    by (unfold is_loaded; now rewrite Hl1).
  split; [ | split; [ | split; [ | split ] ] ].
  - rewrite Ed, orb_true_iff, !Z.ltb_lt. reflexivity.
  - intro Ht. split.
    + rewrite Ed2, Ht. apply orb_true_r.
    + unfold on_mouse_up. rewrite Ht. reflexivity.
  - intro Hf. unfold on_mouse_up. rewrite Hf, Hil1. reflexivity.
  - unfold on_mouse_up. change (is_dragging drag0) with false.
    rewrite Hil. reflexivity.
  - exact Epan.
Qed.

(** ** The further statements at concrete inputs *)




Lemma direction_symmetry_witness :
  (0 < page_width_px session_3000)%Z /\
  img_width session_3000 = (3 * page_width_px session_3000)%Z /\
  start_offset session_3000 == 0 /\
  (1 <= 1 <= 3)%Z /\
  fst (page_box (set_right_to_left true session_3000) 1)
  == fst (page_box (set_right_to_left false session_3000) (3 - 1 + 1)).
Proof.
  assert (0 < page_width_px session_3000)%Z as HP by evaluated.
  assert (img_width session_3000 = (3 * page_width_px session_3000)%Z)
    as HW by evaluated.
  assert (start_offset session_3000 == 0) as Hs by evaluated.
  assert (1 <= 1 <= 3)%Z as Hk by evaluated.
  repeat (split; [ assumption | ]).
  exact (proj1 (direction_symmetry session_3000 3 1 HP HW Hs Hk)).
Defined.

Lemma view_handlers_clamp_pan_witness :
  original_image session_3000 = Some (coordinate_raster 3000 773) /\
  pan_clamped (on_scroll (scroll_at true 500 400) session_3000).
Proof.
  assert (original_image session_3000 = Some (coordinate_raster 3000 773))
    as Hl by reflexivity.
  split; [ exact Hl | ].
  exact (proj1 (proj2 (proj2
    (view_handlers_clamp_pan session_3000 _ (scroll_at true 500 400) 0 0
       (on_mouse_down (scroll_at true 0 0) session_3000) Hl)))).
Defined.


Lemma view_crop_inside_raster_witness :
  let st := pan_by 500 0 (zoom_100 session_3000) in
  pan_clamped st /\ 0 < zoom st /\
  (0 <= canvas_width st)%Z /\ (0 <= canvas_height st)%Z /\
  (0 <= img_width st)%Z /\ (0 <= img_height st)%Z /\
  let '(left_, top, right_, bottom) := view_crop st in
  (0 <= left_ <= right_)%Z /\ (right_ <= img_width st)%Z /\
  (0 <= top <= bottom)%Z /\ (bottom <= img_height st)%Z.
Proof.
  intro st.
  assert (pan_clamped st) as Hc by evaluated.
  assert (0 < zoom st) as Hz by evaluated.
  assert (0 <= canvas_width st)%Z as H1 by evaluated.
  assert (0 <= canvas_height st)%Z as H2 by evaluated.
  assert (0 <= img_width st)%Z as H3 by evaluated.
  assert (0 <= img_height st)%Z as H4 by evaluated.
  repeat (split; [ assumption | ]).
  exact (view_crop_inside_raster st Hc Hz H1 H2 H3 H4).
Defined.

Lemma load_image_sets_up_session_witness :
  let img := coordinate_raster 3000 773 in
  let env := collaborators_for img writable_everywhere in
  let st := snd (load_image env "pano" (init 1000 800)) in
  Image_open env "pano" = inr img /\ Image_load env img = None /\
  (0 < fst (PIL.size img))%Z /\ (0 < snd (PIL.size img))%Z /\
  paginated st /\ page_width_px st = (22 * 773 / 17)%Z /\
  (1 <= pages_x st)%Z.
Proof.
  intros img env st.
  assert (Image_open env "pano" = inr img) as Ho by reflexivity.
  assert (Image_load env img = None) as Hd by reflexivity.
  assert (0 < fst (PIL.size img))%Z as Hw by evaluated.
  assert (0 < snd (PIL.size img))%Z as Hh by evaluated.
  repeat (split; [ assumption | ]).
  destruct (load_image_sets_up_session env "pano" (init 1000 800) img
              Ho Hd Hw Hh)
    as (_ & Hpg & _ & _ & HP & _ & _ & _ & HN & _).
  split; [ exact Hpg | ]. split; [ exact HP | exact HN ].
Defined.

Lemma load_image_open_failure_keeps_state_witness :
  let env :=
    Build_Collaborators (fun _ => inl (OSError "cannot identify image file"))
      (fun _ => None) (fun _ _ => None) (fun p => p)
      (fun _ => "out"%string) (fun p => (p, EmptyString))
      (fun d f => (d ++ "/" ++ f)%string) in
  let st := snd (load_image env "notes.txt" session_3000) in
  Image_open env "notes.txt" = inl (OSError "cannot identify image file") /\
  original_image st = original_image session_3000 /\
  files st = files session_3000.
Proof.
  intros env st.
  assert (Image_open env "notes.txt"
          = inl (OSError "cannot identify image file")) as Ho by reflexivity.
  split; [ exact Ho | ].
  destruct (load_image_open_failure_keeps_state env "notes.txt" session_3000
              _ Ho)
    as (_ & _ & Hi & _ & _ & _ & _ & _ & _ & Hf).
  split; [ exact Hi | exact Hf ].
Defined.





Lemma page_filename_round_trip_witness :
  (0 <= 7)%Z /\ read_digits (Py.format_03d 7) = Some 7%Z /\
  Py.format_03d 7 = "007"%string.
Proof.
  assert (0 <= 7)%Z as H by evaluated.
  split; [ exact H | ].
  split; [ | reflexivity ].
  exact (proj1 (page_filename_round_trip
                  (collaborators_3000 writable_everywhere) "pano" 7 H)).
Defined.

Lemma do_print_pages_in_range_witness :
  do_print (ChoiceRange (Some 0%Z) (Some 2%Z)) session_3000
  = PrintPages [1; 2]%Z /\
  (forall n, In n [1; 2]%Z -> (1 <= n <= pages_x session_3000)%Z).
Proof.
  assert (do_print (ChoiceRange (Some 0%Z) (Some 2%Z)) session_3000
          = PrintPages [1; 2]%Z) as H by reflexivity.
  split; [ exact H | ].
  exact (proj1 (proj2 (do_print_pages_in_range session_3000 _ _ H))).
Defined.



Lemma click_versus_drag_witness :
  let env := collaborators_3000 writable_everywhere in
  let press := Build_Event 1 0 100 100 in
  let move := Build_Event 1 0 140 100 in
  let drag := snd (on_mouse_drag move (session_3000,
                                       on_mouse_down press session_3000)) in
  let st := fst (on_mouse_drag move (session_3000,
                                     on_mouse_down press session_3000)) in
  original_image session_3000 = Some (coordinate_raster 3000 773) /\
  is_dragging drag = true /\
  on_mouse_up env move drag st = (Returned tt, st).
Proof.
  intros env press move drag st.
  assert (original_image session_3000 = Some (coordinate_raster 3000 773))
    as Hl by reflexivity.
  split; [ exact Hl | ].
  destruct (click_versus_drag env session_3000 _ press move move move Hl)
    as (Hiff & Hdrag & _).
  assert (is_dragging drag = true) as Ht.
  { apply Hiff. left. evaluated. }
  split; [ exact Ht | ].
  exact (proj2 (Hdrag Ht)).
Defined.
